(* ===== verification/_CoqProject ===== *)
-Q . S2P
Prelude.v
PyCore.v
Json.v
World.v
PortFilter.v
Prober.v
Sampler.v
Fetch.v
Config.v
Bot.v
