(* ===== verification/Prelude.v ===== *)
(** * A verification development of t2r-bot (tor2relays)

    The repository is a Telegram bot, [src/app/main.py] and
    [src/app/config.py].  On the command [/relays] it downloads the list of
    running Tor relays from onionoo ([fetch_relays]), draws relays at random
    from it, keeps every IPv4 address of a drawn relay whose port is not on a
    fixed deny list ([check_port]) and that accepts a TCP connection
    ([is_socket_open]), and sends the accepted ["host:port fingerprint"]
    lines back as a text document ([relays]).  [Config.init_env] reads the
    timeout and the number of relays from the environment.

    ** How the parts interact

    [relays] (bot handler) -> [fetch_relays] (HTTP GET, seeding of the
    random generator, error wrapping) -> [parse_relays] (the sampling loop)
    -> per address [check_port] and [is_socket_open] -> ["\n".join].  The
    Python process state that these calls share is one record, [World.world]:
    the socket module's default timeout (which [is_socket_open] sets), the
    sockets the code created and did not close, the random generator's seed
    and call counter, the HTTP requests sent, the error log and the bot's
    outgoing messages.  What the process does not control (the network, the
    clock, the Mersenne twister, the Telegram API, the environment
    variables) is an oracle: a field of [World.env], passed as a Section
    [Context] to every component.  Exceptions are values of [PyCore.exc];
    every stateful operation is a function [world -> outcome exc A * world]
    in the state-and-exception monad [st] of this file, so side effects that
    happen before an exception (a socket opened, a random number drawn) are
    kept, exactly as in Python.

    ** Files (in dependency order)

    - [Prelude]: this file.  The monad [st] with [sret] and [sbind]
      (written [let* x := c in k], Python's sequencing), [raise],
      [try_except] (the handler sees the state the body left), and four
      program logics with their composition rules: [wp] (hint database
      [t2r_wp]), [ret_spec] (what a normal return satisfies), [exc_spec]
      (which exceptions can escape), [cost_le] (how much a measure of the
      state grows) and [keeps] (a projection of the state left unchanged);
      [st_eq], equality of programs from every state, is an [Equivalence]
      that [sbind] respects ([Proper] instance), so refinement proofs
      rewrite under binds.  Also the tactics [bool_to_prop] and
      [merge_eqs] and the hint databases [t2r] and [t2r_rw].
    - [PyCore]: the Python builtins the code calls, from the language
      definition (not code of the repository): the exceptions (with
      [errors.FetchedError], whose file is not under src/), [str.split]
      with a one-character separator, [str.find], [str.join], [str(int)]
      and [int(str)] (base 10, whitespace, sign and underscores as CPython
      accepts them), with the round trip [int(str(z)) = z].
    - [Json]: the values [resp.json()] returns and the Python operations the
      code applies to them ([in], [d[k]], [l[i]] with negative indices,
      [len], iteration, the [str] method lookup and [+]).
    - [World]: the process state [world], the oracles [env], and the
      primitive effects: the socket module ([socket.socket],
      [setdefaulttimeout], [connect_ex] with CPython's order of checks:
      C [int] range of the port, host resolution, port range, connection;
      [close]), [time.time], [random.seed]/[randint], [requests.get] (its
      [ValueError] on a timeout that is not positive), [resp.json()],
      [logging] and the Bot API calls (each goes through or raises the
      exception its oracle gives: telebot's ApiTelegramException or a
      network error that telebot lets through).
    - [PortFilter] (Module [PortFilter]): [check_port] (main.py 26-110)
      and the deny list verbatim.
    - [Prober] (Module [Prober], Section [WithEnv]): [is_socket_open]
      (main.py 114-133), the calls in the order of the source.
    - [Sampler]: Module [Sampler] holds [parse_relays] (main.py 159-179):
      [scan_addresses] is the [for] loop, [sample_step] one pass of the
      [while] body, [sample_loop] the [while] loop, [newline] the join
      separator.  Module [SelectSpec] states the selection on typed relay
      records ([select]) and proves that [parse_relays] implements it.
    - [Fetch] (Module [Fetch]): [fetch_relays] (main.py 137-155), split into
      the [try] body ([fetch_body]) and the [except] clauses
      ([fetch_handler]); [onion_url] and [user_agent] verbatim.
    - [Config] (Module [Config]): [Config.__init__] ([config_init]) and
      [Config.init_env] ([init_env], with [read_debug] and [read_int]).
    - [Bot] (Module [Bot]): the handlers [send_welcome] and [relays] (the
      [except] clauses of the fetch are [fetch_failed]), the caption and
      the logging level chosen at start-up (main.py 191-245).

    ** What the theorems show (claim ids C1-C24)

    - Sampler (C1-C3, C8, C9, C23, C24): every output line is
      ["addr fingerprint"] for an address of the directory with no ['['],
      a port [check_port] accepts, in [0, 65535], and a successful probe;
      on a directory of well-formed records [parse_relays] is equal, from
      every state, to the abstract selection [SelectSpec.select] followed
      by the join (a refinement proved by [st_eq] rewriting); the loop
      draws at most [len(relays)] indices, so it terminates; the output has
      at most [max(0, relays_number - 1) + K] lines for [K] addresses per
      relay, none when [relays_number <= 0]; an address without a colon
      aborts the whole run with IndexError; the document without
      ["relays"] is the only source of its [FetchedError]; an empty
      directory gives the empty string with no effect.
    - Port filter (C4, C21, C22): [check_port] answers exactly "the
      integer after the first colon is not one of the 80 listed ports",
      raises IndexError without a colon and ValueError on a non-integer
      field and nothing else; on ["host:" ++ str(p)] it answers
      [p not in bad_ports] (through [int(str(p)) = p]).
    - Prober (C5, C10-C12): [is_socket_open] never raises; it answers True
      exactly when the port parses into [0, 65535], a socket is created and
      the connection succeeds with the default timeout the previous call
      left; afterwards that default is 2 s if a socket was created; a
      socket stays unclosed only when [int()] or [connect_ex] raised, and
      the exception was logged.
    - Fetch (C6, C13-C16): only [FetchedError] leaves [fetch_relays]; a
      status other than 200 gives a [FetchedError] wrapping a
      [FetchedError]; on 200 the result and final state are those of
      [parse_relays] on the decoded body, each of its exceptions [e]
      becoming [FetchedError(e)], and an undecodable body
      [FetchedError(RequestException)]; exactly one request with the
      given timeout and the User-Agent is sent after seeding with the
      clock, none when the timeout is not positive, which always fails.
    - Bot (C7, C17): when the Bot API accepts every call, [/relays] sends
      the announcement and then the document or the apology; the handler
      raises exactly when the fetch raised and the apology was then
      refused, after logging the fetch error (a refused announcement is
      logged and passed over, a refused document never escapes).
    - Config (C18-C20): the defaults, the DEBUG rule ("1" or "true" only),
      and that any decimal integer, zero and negative included, is read
      back into the timeout and the relay count.

    Every theorem with hypotheses has a witness lemma that applies it on a
    concrete environment ([World.demo_env], [Fetch]'s [env_status],
    [Config]'s [env_vars]) and evaluates the definitions.  The [Example]s
    beside them run the code on inputs that exhibit the findings (ports
    136, 138 and 445 accepted, a malformed address failing the whole
    fetch, a caption that does not count the lines).

    ** Bounds and fuel

    No definition uses fuel.  The sampling loop is a [Fixpoint] on the loop
    counter, which the Python code initialises to [len(relays)] and
    decrements by exactly one per iteration; the inner loop is structural on
    the list of addresses.  Integers are [Z], as Python's are unbounded;
    ports are checked against [0, 65535] where [socket.connect_ex] checks
    them.

    ** Not modelled

    The figlet banner and [print] calls, the construction of the TeleBot and
    its polling loop ([bot.infinity_polling]) with the dispatch of commands
    to handlers, the TLS and HTTP layers of [requests] (an
    oracle gives the response), JSON decoding of the body (an oracle gives
    the decoded value; JSON floats are not represented), the Mersenne
    twister (an oracle gives [randint]'s results), CPython's limit of 4300
    digits on [int()] of a string, and code points above 255 in strings;
    [output.encode("utf-8")] (main.py 242) is the identity on the
    document, which holds for its ASCII text.
    The network, clock, random generator, Telegram API and environment
    variables are oracles in [World.env]: the theorems hold for every
    oracle, so for every behaviour of the outside world. *)

From stdpp Require Export base list strings gmap.
From Stdlib Require Export ZArith Lia Ascii.

Declare Scope t2r_scope.
Delimit Scope t2r_scope with t2r.
Open Scope t2r_scope.

(** ** The result of a computation that may raise *)

Inductive outcome (E A : Type) : Type :=
| Ret (a : A)
| Exc (e : E).
Arguments Ret {E A} a.
Arguments Exc {E A} e.

(** ** The state-and-exception monad *)

Definition st (S E A : Type) : Type := S -> outcome E A * S.

Definition sret {S E A} (a : A) : st S E A := fun s => (Ret a, s).

(** Sequencing: run [c], and on a normal return pass its value to [f]; an
    exception skips [f].  The program comes first, so that the type of the
    bound variable is known when the rest is elaborated. *)
Definition sbind {S E A B} (c : st S E A) (f : A -> st S E B) : st S E B :=
  fun s => match c s with
           | (Ret a, s') => f a s'
           | (Exc e, s') => (Exc e, s')
           end.

Notation "'let*' x ':=' c 'in' k" := (sbind c (fun x => k))
  (at level 10, x name, c at level 100, k at level 200) : t2r_scope.

Section StOps.
Context {S E : Type}.

Definition raise {A} (e : E) : st S E A := fun s => (Exc e, s).
Definition get : st S E S := fun s => (Ret s, s).
Definition put (s : S) : st S E unit := fun _ => (Ret tt, s).
Definition modify (f : S -> S) : st S E unit := fun s => (Ret tt, f s).
Definition lift {A} (o : outcome E A) : st S E A := fun s => (o, s).

(** [try: c except: h]: the handler sees the state the body left. *)
Definition try_except {A} (c : st S E A) (h : E -> st S E A) : st S E A :=
  fun s => match c s with
           | (Ret a, s') => (Ret a, s')
           | (Exc e, s') => h e s'
           end.

(** Weakest precondition: [Q] holds of what [c] returns from [s]. *)
Definition wp {A} (c : st S E A) (Q : outcome E A -> S -> Prop) (s : S) : Prop :=
  let '(o, s') := c s in Q o s'.

(** The computation returns normally from every state. *)
Definition no_raise {A} (c : st S E A) : Prop :=
  forall s, exists a, fst (c s) = Ret a.
End StOps.

(** ** Rules of [wp] *)

Create Rewrite HintDb t2r_wp.
Create Rewrite HintDb t2r_rw.
Create HintDb t2r discriminated.

Section WpRules.
Context {S E : Type}.

Lemma wp_ret {A} (a : A) Q (s : S) :
  wp (E:=E) (sret a) Q s <-> Q (Ret a) s.
Proof. reflexivity. Qed.

Lemma wp_raise {A} (e : E) Q (s : S) :
  wp (A:=A) (raise e) Q s <-> Q (Exc e) s.
Proof. reflexivity. Qed.

Lemma wp_lift {A} (o : outcome E A) Q (s : S) : wp (lift o) Q s <-> Q o s.
Proof. reflexivity. Qed.

Lemma wp_modify f Q (s : S) : wp (E:=E) (modify f) Q s <-> Q (Ret tt) (f s).
Proof. reflexivity. Qed.

Lemma wp_get Q (s : S) : wp (E:=E) get Q s <-> Q (Ret s) s.
Proof. reflexivity. Qed.

Lemma wp_bind {A B} (c : st S E A) (f : A -> st S E B) Q s :
  wp (sbind c f) Q s <->
  wp c (fun o s' => match o with
                    | Ret a => wp (f a) Q s'
                    | Exc e => Q (Exc e) s'
                    end) s.
Proof.
  unfold wp, sbind. destruct (c s) as [[a|e] s']; reflexivity.
Qed.

Lemma wp_try {A} (c : st S E A) h Q s :
  wp (try_except c h) Q s <->
  wp c (fun o s' => match o with
                    | Ret a => Q (Ret a) s'
                    | Exc e => wp (h e) Q s'
                    end) s.
Proof.
  unfold wp, try_except. destruct (c s) as [[a|e] s']; reflexivity.
Qed.

Lemma wp_mono {A} (c : st S E A) (Q Q' : outcome E A -> S -> Prop) s :
  (forall o s', Q o s' -> Q' o s') -> wp c Q s -> wp c Q' s.
Proof. unfold wp. destruct (c s). auto. Qed.

Lemma wp_intro {A} (c : st S E A) Q s o s' :
  c s = (o, s') -> Q o s' -> wp c Q s.
Proof. unfold wp. intros -> HQ. exact HQ. Qed.

Lemma wp_elim {A} (c : st S E A) Q s o s' :
  c s = (o, s') -> wp c Q s -> Q o s'.
Proof. unfold wp. now intros ->. Qed.

(** A handler that never raises makes [try/except] never raise. *)
Lemma try_except_no_raise {A} (c : st S E A) h :
  (forall e, no_raise (h e)) -> no_raise (try_except c h).
Proof.
  intros Hh s. unfold try_except.
  destruct (c s) as [[a|e] s']; [eauto | apply Hh].
Qed.

Lemma bind_ret_l {A B} (a : A) (f : A -> st S E B) :
  sbind (sret a) f = f a.
Proof. reflexivity. Qed.

End WpRules.

#[export] Hint Rewrite @wp_ret @wp_raise @wp_lift @wp_modify @wp_get
  @wp_bind @wp_try : t2r_wp.

(** [wp_step] turns a [wp] goal about a composed program into [wp] goals
    about its first statement. *)
Ltac wp_step :=
  repeat (rewrite ?wp_bind, ?wp_try, ?wp_ret, ?wp_raise, ?wp_lift,
                  ?wp_modify, ?wp_get).

(** ** Generic lemmas on lists and options shared by the components *)

Lemma Forall_app_singleton {A} (P : A -> Prop) l x :
  Forall P l -> P x -> Forall P (l ++ [x]).
Proof. intros Hl Hx. apply Forall_app; auto. Qed.

#[export] Hint Resolve Forall_app_singleton : t2r.

Lemma length_app_singleton {A} (l : list A) (x : A) :
  length (l ++ [x]) = S (length l).
Proof. rewrite length_app. simpl. lia. Qed.

#[export] Hint Rewrite @length_app_singleton : t2r_rw.

(** [existsb] over a list of integers is list membership. *)
Lemma existsb_Zeqb_In (n : Z) (l : list Z) :
  existsb (Z.eqb n) l = true <-> In n l.
Proof.
  rewrite existsb_exists. split.
  - intros [x [Hx Heq]]. apply Z.eqb_eq in Heq. subst. exact Hx.
  - intros H. exists n. split; [exact H | apply Z.eqb_refl].
Qed.

(** [bool_to_prop] turns the boolean tests of the code, found in the
    hypotheses, into the propositions they decide, for [lia] and
    [congruence]. *)
Ltac bool_to_prop :=
  repeat match goal with
  | H : (_ && _) = true |- _ => apply andb_prop in H as [? ?]
  | H : (_ && _) = false |- _ => apply andb_false_iff in H as [?|?]
  | H : (_ <=? _)%Z = true |- _ => apply Z.leb_le in H
  | H : (_ <=? _)%Z = false |- _ => apply Z.leb_gt in H
  | H : (_ <? _)%Z = true |- _ => apply Z.ltb_lt in H
  | H : (_ <? _)%Z = false |- _ => apply Z.ltb_ge in H
  | H : (_ =? _)%Z = true |- _ => apply Z.eqb_eq in H
  | H : (_ =? _)%Z = false |- _ => apply Z.eqb_neq in H
  | H : (_ <=? _)%nat = true |- _ => apply Nat.leb_le in H
  | H : (_ <=? _)%nat = false |- _ => apply Nat.leb_gt in H
  | H : (_ <? _)%nat = true |- _ => apply Nat.ltb_lt in H
  | H : (_ <? _)%nat = false |- _ => apply Nat.ltb_ge in H
  end.

(** [merge_eqs] uses two hypotheses [x = a] and [x = b] to learn [a = b]. *)
Ltac merge_eqs :=
  repeat match goal with
  | H1 : ?x = ?a, H2 : ?x = ?b |- _ =>
      assert_fails (constr_eq a b); rewrite H1 in H2; simplify_eq
  end.

(** ** Three ways of reasoning about a program of [st]

    - [ret_spec c Q]: every value [c] returns normally satisfies [Q]
      (partial correctness for the normal exit; exceptions are not
      constrained).
    - [cost_le m c k]: [c] raises the measure [m] of the state by at most
      [k], whatever it returns or raises.
    - [st_eq c1 c2]: the two programs do the same thing from every state;
      it is an equivalence and bind respects it, so it rewrites. *)

Section Logic.
Context {S E : Type}.

Definition ret_spec {A} (c : st S E A) (Q : A -> Prop) : Prop :=
  forall s a s', c s = (Ret a, s') -> Q a.

Lemma ret_spec_ret {A} (a : A) (Q : A -> Prop) : Q a -> ret_spec (sret (S:=S) (E:=E) a) Q.
Proof. intros HQ s a' s' [= <- _]. exact HQ. Qed.

Lemma ret_spec_lift {A} (o : outcome E A) (Q : A -> Prop) :
  (forall a, o = Ret a -> Q a) -> ret_spec (lift o) Q.
Proof. intros H s a s' [= Ho _]. now apply H. Qed.

Lemma ret_spec_raise {A} (e : E) (Q : A -> Prop) : ret_spec (raise e) Q.
Proof. intros s a s' [=]. Qed.

Lemma ret_spec_bind {A B} (c : st S E A) (f : A -> st S E B) P Q :
  ret_spec c P -> (forall a, P a -> ret_spec (f a) Q) -> ret_spec (sbind c f) Q.
Proof.
  intros Hc Hf s b s'. cbv [sbind].
  destruct (c s) as [[a|e] s1] eqn:E1; [|discriminate].
  apply (Hf a (Hc _ _ _ E1)).
Qed.

Lemma ret_spec_weaken {A} (c : st S E A) (P Q : A -> Prop) :
  ret_spec c P -> (forall a, P a -> Q a) -> ret_spec c Q.
Proof. intros Hc HPQ s a s' H. eauto. Qed.

Definition cost_le {A} (m : S -> nat) (c : st S E A) (k : nat) : Prop :=
  forall s, m (snd (c s)) <= m s + k.

Lemma cost_le_ret {A} m (a : A) : cost_le m (sret (S:=S) (E:=E) a) 0.
Proof. intros s. cbn. lia. Qed.

Lemma cost_le_lift {A} m (o : outcome E A) : cost_le m (lift o) 0.
Proof. intros s. cbn. lia. Qed.

Lemma cost_le_raise {A} m (e : E) : cost_le (A:=A) m (raise e) 0.
Proof. intros s. cbn. lia. Qed.

Lemma cost_le_bind {A B} m (c : st S E A) (f : A -> st S E B) k1 k2 :
  cost_le m c k1 -> (forall a, cost_le m (f a) k2) -> cost_le m (sbind c f) (k1 + k2).
Proof.
  intros Hc Hf s. specialize (Hc s). cbv [sbind].
  destruct (c s) as [[a|e] s1]; cbn in *; [specialize (Hf a s1) |]; lia.
Qed.

Lemma cost_le_mono {A} m (c : st S E A) k k' : cost_le m c k -> k <= k' -> cost_le m c k'.
Proof. intros H Hk s. specialize (H s). lia. Qed.

Definition st_eq {A} (c1 c2 : st S E A) : Prop := forall s, c1 s = c2 s.

#[export] Instance st_eq_equiv {A} : Equivalence (@st_eq A).
Proof.
  split.
  - intros c s. reflexivity.
  - intros c1 c2 H s. symmetry. apply H.
  - intros c1 c2 c3 H1 H2 s. now rewrite H1, H2.
Qed.

#[export] Instance st_bind_proper {A B} :
  Proper (st_eq ==> pointwise_relation A st_eq ==> st_eq) (@sbind S E A B).
Proof.
  intros c1 c2 Hc f1 f2 Hf s. cbv [sbind]. rewrite Hc.
  destruct (c2 s) as [[a|e] s1]; [apply Hf | reflexivity].
Qed.
End Logic.

(** [exc_spec c P]: every exception [c] raises satisfies [P]. *)
Section ExcSpec.
Context {S E : Type}.

Definition exc_spec {A} (c : st S E A) (P : E -> Prop) : Prop :=
  forall s e s', c s = (Exc e, s') -> P e.

Lemma exc_spec_ret {A} (a : A) P : exc_spec (sret (S:=S) (E:=E) a) P.
Proof. intros s e s' [=]. Qed.

Lemma exc_spec_lift {A} (o : outcome E A) P :
  (forall e, o = Exc e -> P e) -> exc_spec (lift o) P.
Proof. intros H s e s' [= Ho _]. now apply H. Qed.

Lemma exc_spec_bind {A B} (c : st S E A) (f : A -> st S E B) P :
  exc_spec c P -> (forall a, exc_spec (f a) P) -> exc_spec (sbind c f) P.
Proof.
  intros Hc Hf s e s'. cbv [sbind].
  destruct (c s) as [[a|e'] s1] eqn:E1; [apply Hf | intros [= <- _]; eapply Hc; eauto].
Qed.

Lemma exc_spec_try {A} (c : st S E A) (h : E -> st S E A) P :
  (forall e, exc_spec (h e) P) -> exc_spec (try_except c h) P.
Proof.
  intros Hh s e s'. unfold try_except.
  destruct (c s) as [[a|e'] s1]; [intros [=] | apply Hh].
Qed.
Lemma exc_spec_no_raise {A} (c : st S E A) P : no_raise c -> exc_spec c P.
Proof.
  intros Hc s e s' H. destruct (Hc s) as [a Ha]. rewrite H in Ha. discriminate.
Qed.

Lemma exc_spec_weaken {A} (c : st S E A) (P Q : E -> Prop) :
  exc_spec c P -> (forall e, P e -> Q e) -> exc_spec c Q.
Proof. intros Hc HPQ s e s' H. eauto. Qed.
End ExcSpec.

#[export] Hint Resolve ret_spec_ret ret_spec_lift ret_spec_raise
  cost_le_ret cost_le_lift cost_le_raise exc_spec_ret : t2r.

(** ** Frames: a projection of the state the program leaves unchanged *)

Section Keeps.
Context {S E X : Type} (f : S -> X).

Definition keeps {A} (c : st S E A) : Prop := forall s, f (snd (c s)) = f s.

Lemma keeps_ret {A} (a : A) : keeps (sret (S:=S) (E:=E) a).
Proof. intros s. reflexivity. Qed.

Lemma keeps_lift {A} (o : outcome E A) : keeps (lift o).
Proof. intros s. reflexivity. Qed.

Lemma keeps_raise {A} (e : E) : keeps (A:=A) (raise e).
Proof. intros s. reflexivity. Qed.

Lemma keeps_bind {A B} (c : st S E A) (g : A -> st S E B) :
  keeps c -> (forall a, keeps (g a)) -> keeps (sbind c g).
Proof.
  intros Hc Hg s. specialize (Hc s). cbv [sbind].
  destruct (c s) as [[a|e] s1]; cbn in *; [rewrite Hg|]; exact Hc.
Qed.

Lemma keeps_try {A} (c : st S E A) (h : E -> st S E A) :
  keeps c -> (forall e, keeps (h e)) -> keeps (try_except c h).
Proof.
  intros Hc Hh s. specialize (Hc s). unfold try_except.
  destruct (c s) as [[a|e] s1]; cbn in *; [|rewrite Hh]; exact Hc.
Qed.
End Keeps.

#[export] Hint Resolve keeps_ret keeps_lift keeps_raise : t2r.

Lemma try_except_sbind {S E A B} (c : st S E A) (k : A -> st S E B) (h : E -> st S E B) s :
  try_except (sbind c k) h s =
  match c s with
  | (Ret a, s1) => try_except (k a) h s1
  | (Exc e, s1) => h e s1
  end.
Proof. unfold try_except, sbind. now destruct (c s) as [[a|e] s1]. Qed.
