(* ===== verification/PyCore.v ===== *)
(** * The Python builtins the bot calls

    Exceptions and the [str] methods used by [src/app/main.py] and
    [src/app/config.py]: [str.split] with a one-character separator,
    [str.find] of a one-character needle, [str.join], [str(int)] and
    [int(str)] in base 10.  These are defined from the Python language
    reference (they are not code of the repository).  Strings are Rocq
    [string]s, sequences of code points 0..255. *)

From S2P Require Import Prelude.

(** ** Exceptions *)

(** The exception classes that can reach a handler of the program.
    [FetchedError] is the class of [errors.py] (not under src/): its one
    argument is either a message or the exception it wraps, and [str()] of
    it is [str()] of that argument. *)
Inductive exc : Type :=
| TypeError
| KeyError
| IndexError
| ValueError
| AttributeError
| OverflowError
| OSError
| ConnectionError
| RequestException
| ApiException
| FetchedError (arg : exc_arg)
with exc_arg : Type :=
| ArgStr (s : string)
| ArgExc (e : exc).

(** The built-in exceptions that subscription, [len], iteration, attribute
    lookup, [str.split(...)[i]], [int()] and [randint] raise on bad data:
    neither the program's own [FetchedError] nor a network error. *)
Definition builtin_exc (e : exc) : Prop :=
  match e with
  | TypeError | KeyError | IndexError | ValueError | AttributeError => True
  | _ => False
  end.

(** A pure Python expression that may raise. *)
Abbreviation pyr := (outcome exc).

(** ** [str.split(sep)] for a one-character separator *)

Fixpoint py_split (sep : Ascii.ascii) (s : string) : list string :=
  match s with
  | EmptyString => [EmptyString]
  | String c rest =>
      let pieces := py_split sep rest in
      if Ascii.ascii_dec c sep then EmptyString :: pieces
      else match pieces with
           | p :: ps => String c p :: ps
           | [] => [String c EmptyString]
           end
  end.

(** ** [str.find(ch)]: the first index of [ch], or -1 *)

Fixpoint find_index (ch : Ascii.ascii) (s : string) : option nat :=
  match s with
  | EmptyString => None
  | String c rest =>
      if Ascii.ascii_dec c ch then Some 0 else option_map S (find_index ch rest)
  end.

Definition py_find (ch : Ascii.ascii) (s : string) : Z :=
  match find_index ch s with
  | Some i => Z.of_nat i
  | None => (-1)%Z
  end.

(** ** [sep.join(l)] *)

Fixpoint py_join (sep : string) (l : list string) : string :=
  match l with
  | [] => EmptyString
  | [x] => x
  | x :: rest => x +:+ sep +:+ py_join sep rest
  end.

(** ** [str(n)] for an [int] *)

Definition digit_char (d : Z) : Ascii.ascii := Ascii.ascii_of_nat (48 + Z.to_nat d).
Arguments digit_char : simpl never.

(** Prepends the decimal digits of [n] to [acc]; [fuel] bounds the number
    of digits, and [S (log2 n)] digits always suffice. *)
Fixpoint digits_go (fuel : nat) (n : Z) (acc : string) : string :=
  match fuel with
  | O => acc
  | S f =>
      let acc' := String (digit_char (n mod 10)) acc in
      if (n <? 10)%Z then acc' else digits_go f (n / 10) acc'
  end.

Definition str_of_nonneg (n : Z) : string :=
  digits_go (S (Z.to_nat (Z.log2 n))) n EmptyString.

Definition py_str_int (z : Z) : string :=
  if (z <? 0)%Z then String "-"%char (str_of_nonneg (- z)) else str_of_nonneg z.

(** ** [int(s)] in base 10

    CPython strips the whitespace around the literal (the ASCII ones, the
    separators 0x1c-0x1f, 0x85 and 0xa0), accepts one sign, then one or
    more digits in which single underscores may separate two digits;
    leading zeros are allowed.  Anything else raises ValueError. *)

Definition is_space (c : Ascii.ascii) : bool :=
  existsb (Nat.eqb (Ascii.nat_of_ascii c)) [9; 10; 11; 12; 13; 28; 29; 30; 31; 32; 133; 160].

Fixpoint ltrim (l : list Ascii.ascii) : list Ascii.ascii :=
  match l with
  | c :: r => if is_space c then ltrim r else l
  | [] => []
  end.

Definition strip (l : list Ascii.ascii) : list Ascii.ascii := rev (ltrim (rev (ltrim l))).

Definition digit_val (c : Ascii.ascii) : option Z :=
  let n := Ascii.nat_of_ascii c in
  if (48 <=? n) && (n <=? 57) then Some (Z.of_nat (n - 48)) else None.

(** The digits after the first one: a digit, or an underscore followed by
    a digit. *)
Fixpoint digits_after (acc : Z) (l : list Ascii.ascii) : option Z :=
  match l with
  | [] => Some acc
  | c :: r =>
      match digit_val c with
      | Some d => digits_after (acc * 10 + d) r
      | None =>
          if Ascii.ascii_dec c "_"%char then
            match r with
            | c' :: r' =>
                match digit_val c' with
                | Some d => digits_after (acc * 10 + d) r'
                | None => None
                end
            | [] => None
            end
          else None
      end
  end.

Definition parse_unsigned (l : list Ascii.ascii) : option Z :=
  match l with
  | c :: r => match digit_val c with Some d => digits_after d r | None => None end
  | [] => None
  end.

Definition py_int_opt (s : string) : option Z :=
  match strip (String.list_ascii_of_string s) with
  | c :: r =>
      if Ascii.ascii_dec c "-"%char then option_map Z.opp (parse_unsigned r)
      else if Ascii.ascii_dec c "+"%char then parse_unsigned r
      else parse_unsigned (c :: r)
  | [] => None
  end.

Definition py_int (s : string) : pyr Z :=
  match py_int_opt s with
  | Some z => Ret z
  | None => Exc ValueError
  end.

(** Concrete runs of the builtins, as the Python interpreter gives them. *)
Example py_split_host_port : py_split ":"%char "1.2.3.4:9001" = ["1.2.3.4"; "9001"].
Proof. reflexivity. Qed.
Example py_split_no_colon : py_split ":"%char "1.2.3.4" = ["1.2.3.4"].
Proof. reflexivity. Qed.
Example py_int_forms :
  py_int " 80 " = Ret 80%Z /\ py_int "+0_80" = Ret 80%Z /\ py_int "-5" = Ret (-5)%Z /\
  py_int "8__0" = Exc ValueError /\ py_int "" = Exc ValueError /\ py_int "_8" = Exc ValueError.
Proof. repeat split; reflexivity. Qed.
Example py_str_int_forms : py_str_int 404 = "404" /\ py_str_int 0 = "0" /\ py_str_int (-12) = "-12".
Proof. repeat split; reflexivity. Qed.

(** ** Lemmas on the builtins *)

Lemma py_split_nonempty sep s : py_split sep s <> [].
Proof.
  destruct s as [|c rest]; simpl; [discriminate|].
  destruct (Ascii.ascii_dec c sep); [discriminate|].
  destruct (py_split sep rest); discriminate.
Qed.

Lemma py_join_cons sep x l :
  l <> [] -> py_join sep (x :: l) = x +:+ sep +:+ py_join sep l.
Proof. destruct l; [congruence | reflexivity]. Qed.

Lemma py_join_String sep c p ps :
  py_join sep (String c p :: ps) = String c (py_join sep (p :: ps)).
Proof. destruct ps; reflexivity. Qed.

(** [str.find] answers -1 exactly when the character does not occur. *)
Lemma py_find_neg1 ch s : py_find ch s = (-1)%Z <-> find_index ch s = None.
Proof.
  unfold py_find. destruct (find_index ch s); split; intros H; try lia; easy.
Qed.

(** Splitting where the separator does not occur gives one piece. *)
Lemma py_split_no_sep sep x : find_index sep x = None -> py_split sep x = [x].
Proof.
  induction x as [|c x IH]; simpl; [reflexivity|].
  destruct (Ascii.ascii_dec c sep); [discriminate|].
  destruct (find_index sep x); [discriminate|]. intros _. now rewrite IH.
Qed.

Lemma py_split_app_sep sep x r :
  find_index sep x = None ->
  py_split sep (x +:+ String sep r) = x :: py_split sep r.
Proof.
  induction x as [|c x IH]; simpl; intros Hx.
  - destruct (Ascii.ascii_dec sep sep); congruence.
  - destruct (Ascii.ascii_dec c sep); [discriminate|].
    destruct (find_index sep x); [discriminate|]. now rewrite IH.
Qed.

(** [sep.join(s.split(sep)) == s]. *)
Lemma py_join_split sep s : py_join (String sep EmptyString) (py_split sep s) = s.
Proof.
  induction s as [|c rest IH]; simpl; [reflexivity|].
  destruct (Ascii.ascii_dec c sep) as [->|Hne].
  - rewrite py_join_cons by apply py_split_nonempty. simpl. now rewrite IH.
  - pose proof (py_split_nonempty sep rest) as Hne'.
    destruct (py_split sep rest) as [|p ps]; [congruence|].
    rewrite py_join_String. now rewrite IH.
Qed.

(** [sep.join(l).split(sep) == l] when no element contains [sep]. *)
Lemma py_split_join sep l :
  l <> [] -> Forall (fun x => find_index sep x = None) l ->
  py_split sep (py_join (String sep EmptyString) l) = l.
Proof.
  induction l as [|x l IH]; intros Hnil Hall; [congruence|].
  inversion Hall as [|? ? Hx Hl]; subst.
  destruct l as [|y l].
  - simpl. now apply py_split_no_sep.
  - rewrite py_join_cons by discriminate.
    change (String sep EmptyString +:+ ?r) with (String sep r).
    rewrite py_split_app_sep by exact Hx. rewrite IH; [reflexivity | discriminate | exact Hl].
Qed.

(** *** [int(str(z)) == z] *)

Lemma digit_val_digit_char d : (0 <= d < 10)%Z -> digit_val (digit_char d) = Some d.
Proof.
  intros Hd. unfold digit_val, digit_char.
  rewrite Ascii.nat_ascii_embedding by lia.
  replace (48 <=? 48 + Z.to_nat d) with true by (symmetry; apply Nat.leb_le; lia).
  replace (48 + Z.to_nat d <=? 57) with true by (symmetry; apply Nat.leb_le; lia).
  simpl. f_equal. lia.
Qed.

Definition is_digit_char (c : Ascii.ascii) : Prop := exists d, (0 <= d < 10)%Z /\ c = digit_char d.

Lemma is_space_digit_char d : (0 <= d < 10)%Z -> is_space (digit_char d) = false.
Proof.
  intros Hd. assert (d = 0 \/ d = 1 \/ d = 2 \/ d = 3 \/ d = 4 \/ d = 5 \/ d = 6 \/
                     d = 7 \/ d = 8 \/ d = 9)%Z as Hc by lia.
  repeat destruct Hc as [->|Hc]; subst; reflexivity.
Qed.

Lemma digits_after_digit a d r :
  (0 <= d < 10)%Z -> digits_after a (digit_char d :: r) = digits_after (a * 10 + d) r.
Proof. intros Hd. cbn [digits_after]. now rewrite digit_val_digit_char. Qed.

(** The digits [digits_go] prepends parse back, left to right, to [n]. *)
Lemma digits_go_parse f n acc :
  (0 <= n < 10 ^ Z.of_nat (S f))%Z ->
  exists p, (forall a, digits_after a (String.list_ascii_of_string (digits_go (S f) n acc)) =
                  digits_after (a * p + n) (String.list_ascii_of_string acc))
         /\ exists d r, String.list_ascii_of_string (digits_go (S f) n acc) = digit_char d :: r
                        /\ (0 <= d < 10)%Z.
Proof.
  assert (Hm : forall n, (0 <= n mod 10 < 10)%Z) by (intros; apply Z.mod_pos_bound; lia).
  revert n acc. induction f as [|f IH]; intros n acc Hn.
  - cbn [digits_go]. assert ((n <? 10)%Z = true) as -> by (apply Z.ltb_lt; lia).
    exists 10%Z. split.
    + intros a. cbn [String.list_ascii_of_string]. rewrite digits_after_digit by apply Hm.
      rewrite Z.mod_small by lia. reflexivity.
    + eexists _, _. split; [reflexivity | apply Hm].
  - cbn [digits_go]. destruct (n <? 10)%Z eqn:Hlt.
    + apply Z.ltb_lt in Hlt. exists 10%Z. split.
      * intros a. cbn [String.list_ascii_of_string]. rewrite digits_after_digit by apply Hm.
        rewrite Z.mod_small by lia. reflexivity.
      * eexists _, _. split; [reflexivity | apply Hm].
    + apply Z.ltb_ge in Hlt.
      destruct (IH (n / 10)%Z (String (digit_char (n mod 10)) acc)) as [p [Hp Hhd]].
      { split; [apply Z.div_pos; lia|]. apply Z.div_lt_upper_bound; [lia|].
        rewrite Nat2Z.inj_succ, Z.pow_succ_r in Hn by lia. lia. }
      exists (p * 10)%Z. split; [|exact Hhd].
      intros a. rewrite Hp. cbn [String.list_ascii_of_string].
      rewrite digits_after_digit by apply Hm.
      f_equal. pose proof (Z.div_mod n 10). lia.
Qed.

Lemma digits_go_chars f n acc :
  (0 <= n)%Z -> Forall is_digit_char (String.list_ascii_of_string acc) ->
  Forall is_digit_char (String.list_ascii_of_string (digits_go f n acc)).
Proof.
  revert n acc. induction f as [|f IH]; intros n acc Hn Hacc; [exact Hacc|].
  assert (Hd : is_digit_char (digit_char (n mod 10))).
  { exists (n mod 10)%Z. split; [apply Z.mod_pos_bound; lia | reflexivity]. }
  cbn [digits_go]. destruct (n <? 10)%Z.
  - simpl. constructor; assumption.
  - apply IH; [apply Z.div_pos; lia | simpl; constructor; assumption].
Qed.

Lemma ltrim_id l : Forall (fun c => is_space c = false) l -> ltrim l = l.
Proof. intros H. destruct H as [|c l Hc _]; simpl; [reflexivity | now rewrite Hc]. Qed.

Lemma strip_id l : Forall (fun c => is_space c = false) l -> strip l = l.
Proof.
  intros H. unfold strip. rewrite (ltrim_id l H), ltrim_id.
  - apply rev_involutive.
  - apply Forall_rev. exact H.
Qed.

Lemma str_of_nonneg_spec n :
  (0 <= n)%Z ->
  Forall is_digit_char (String.list_ascii_of_string (str_of_nonneg n)) /\
  exists d r, String.list_ascii_of_string (str_of_nonneg n) = digit_char d :: r /\ (0 <= d < 10)%Z /\
              digits_after 0 (String.list_ascii_of_string (str_of_nonneg n)) = Some n.
Proof.
  intros Hn. unfold str_of_nonneg.
  destruct (digits_go_parse (Z.to_nat (Z.log2 n)) n EmptyString) as [p [Hp [d [r [Hdr Hd]]]]].
  { split; [exact Hn|]. rewrite Nat2Z.inj_succ, Z2Nat.id by apply Z.log2_nonneg.
    destruct (Z.eq_dec n 0) as [->|Hn0]; [simpl; lia|].
    apply Z.lt_le_trans with (2 ^ Z.succ (Z.log2 n))%Z.
    - apply Z.log2_spec; lia.
    - apply Z.pow_le_mono_l. split; [lia | lia]. }
  split; [apply digits_go_chars; [exact Hn | constructor]|].
  exists d, r. split; [exact Hdr|]. split; [exact Hd|].
  rewrite Hp. reflexivity.
Qed.

Lemma digits_not_space l : Forall is_digit_char l -> Forall (fun c => is_space c = false) l.
Proof.
  intros H. eapply Forall_impl; [exact H|]. intros c [d [Hd ->]]. now apply is_space_digit_char.
Qed.

Lemma digit_char_not_sign d :
  (0 <= d < 10)%Z -> digit_char d <> "-"%char /\ digit_char d <> "+"%char.
Proof.
  intros Hd. pose proof (digit_val_digit_char d Hd) as Hv.
  split; intros Heq; rewrite Heq in Hv; discriminate.
Qed.

Lemma parse_unsigned_digit d r :
  (0 <= d < 10)%Z -> parse_unsigned (digit_char d :: r) = digits_after 0 (digit_char d :: r).
Proof.
  intros Hd. rewrite digits_after_digit by exact Hd.
  unfold parse_unsigned. now rewrite digit_val_digit_char.
Qed.

(** [int(str(z)) == z] for every Python [int]. *)
Lemma py_int_str z : py_int (py_str_int z) = Ret z.
Proof.
  unfold py_int, py_int_opt, py_str_int.
  destruct (z <? 0)%Z eqn:Hz.
  - apply Z.ltb_lt in Hz.
    destruct (str_of_nonneg_spec (- z)) as [Hall [d [r [Hdr [Hd Hparse]]]]]; [lia|].
    change (String.list_ascii_of_string (String "-"%char ?s))
      with ("-"%char :: String.list_ascii_of_string s).
    rewrite strip_id by (constructor; [reflexivity | now apply digits_not_space]).
    cbv beta iota. destruct (Ascii.ascii_dec "-"%char "-"%char) as [_|]; [|congruence].
    rewrite Hdr in *. rewrite parse_unsigned_digit, Hparse by exact Hd.
    cbn [option_map]. f_equal. lia.
  - apply Z.ltb_ge in Hz.
    destruct (str_of_nonneg_spec z) as [Hall [d [r [Hdr [Hd Hparse]]]]]; [exact Hz|].
    rewrite strip_id by now apply digits_not_space. rewrite Hdr in *.
    destruct (digit_char_not_sign d Hd) as [Hm Hp]. cbv beta iota.
    destruct (Ascii.ascii_dec (digit_char d) "-"%char); [congruence|].
    destruct (Ascii.ascii_dec (digit_char d) "+"%char); [congruence|].
    now rewrite parse_unsigned_digit, Hparse by exact Hd.
Qed.

(** A string in which [sep] occurs is a piece, [sep], and the rest. *)
Lemma find_index_split sep s i :
  find_index sep s = Some i ->
  exists x r, s = x +:+ String sep r /\ find_index sep x = None.
Proof.
  revert i. induction s as [|c s IH]; intros i H; [discriminate|].
  simpl in H. destruct (Ascii.ascii_dec c sep) as [->|Hne].
  - exists EmptyString, s. split; reflexivity.
  - destruct (find_index sep s) as [j|] eqn:Hj; [|discriminate].
    destruct (IH j eq_refl) as [x [r [-> Hx]]].
    exists (String c x), r. split; [reflexivity|]. simpl.
    destruct (Ascii.ascii_dec c sep); [congruence|]. now rewrite Hx.
Qed.

(** [s.split(sep)] has a second field exactly when [sep] occurs in [s]. *)
Lemma py_split_second sep s :
  nth_error (py_split sep s) 1 = None <-> find_index sep s = None.
Proof.
  split.
  - intros H. destruct (find_index sep s) as [i|] eqn:Hi; [|reflexivity].
    destruct (find_index_split sep s i Hi) as [x [r [-> Hx]]].
    rewrite py_split_app_sep in H by exact Hx.
    pose proof (py_split_nonempty sep r). destruct (py_split sep r); [congruence | discriminate].
  - intros H. now rewrite py_split_no_sep.
Qed.

(** [str(n)] has only digits and a leading minus sign. *)
Lemma py_str_int_chars z :
  Forall (fun c => is_digit_char c \/ c = "-"%char) (String.list_ascii_of_string (py_str_int z)).
Proof.
  unfold py_str_int. destruct (z <? 0)%Z eqn:Hz.
  - apply Z.ltb_lt in Hz. cbn [String.list_ascii_of_string]. constructor; [now right|].
    destruct (str_of_nonneg_spec (- z)) as [Hall _]; [lia|].
    eapply Forall_impl; [exact Hall | now left].
  - apply Z.ltb_ge in Hz. destruct (str_of_nonneg_spec z) as [Hall _]; [exact Hz|].
    eapply Forall_impl; [exact Hall | now left].
Qed.

Lemma find_index_None_Forall sep s :
  Forall (fun c => c <> sep) (String.list_ascii_of_string s) -> find_index sep s = None.
Proof.
  induction s as [|c s IH]; simpl; intros H; [reflexivity|].
  inversion H as [|? ? Hc Hs]; subst.
  destruct (Ascii.ascii_dec c sep); [congruence|]. now rewrite IH.
Qed.

(** No colon in [str(n)]. *)
Lemma py_str_int_no_colon z : find_index ":"%char (py_str_int z) = None.
Proof.
  apply find_index_None_Forall. eapply Forall_impl; [apply py_str_int_chars|].
  intros c [[d [Hd ->]] | ->]; [|discriminate].
  intros Heq. pose proof (digit_val_digit_char d Hd) as Hv. rewrite Heq in Hv. discriminate.
Qed.
