(* ===== verification/Json.v ===== *)
(** * Decoded JSON values and the Python operations on them

    [resp.json()] turns the onionoo document into Python dicts, lists,
    strings, ints, booleans and [None]; [parse_relays] then applies [in],
    subscription, [len] and iteration to them.  A JSON object keeps its
    members in document order: Python's [json.loads] builds a dict in which
    a repeated key keeps its first position and its last value, which
    [obj_lookup] and [obj_keys] reproduce.  These are the semantics of the
    Python operations, not code of the repository. *)

From S2P Require Import Prelude PyCore.

Inductive json : Type :=
| JNull
| JBool (b : bool)
| JInt (z : Z)
| JStr (s : string)
| JArr (l : list json)
| JObj (kvs : list (string * json)).

(** ** Dicts built from JSON objects *)

(** The value of key [k]: the last member named [k]. *)
Definition obj_lookup (k : string) (kvs : list (string * json)) : option json :=
  fold_left (fun acc kv => if String.eqb k kv.1 then Some kv.2 else acc) kvs None.

(** The keys in dict order: first occurrences, in document order. *)
Definition obj_keys (kvs : list (string * json)) : list string :=
  fold_left (fun acc kv => if existsb (String.eqb kv.1) acc then acc else acc ++ [kv.1]) kvs [].

(** ** [x in j] for a string [x] *)

Fixpoint str_contains (needle hay : string) : bool :=
  String.prefix needle hay ||
  match hay with
  | EmptyString => false
  | String _ rest => str_contains needle rest
  end.

Definition py_contains (k : string) (j : json) : pyr bool :=
  match j with
  | JObj kvs => Ret (existsb (fun kv => String.eqb k kv.1) kvs)
  | JArr l => Ret (existsb (fun e => match e with JStr s => String.eqb s k | _ => false end) l)
  | JStr s => Ret (str_contains k s)
  | JNull | JBool _ | JInt _ => Exc TypeError
  end.

(** ** Subscription *)

(** [j[k]] for a string key. *)
Definition py_getitem_str (j : json) (k : string) : pyr json :=
  match j with
  | JObj kvs => match obj_lookup k kvs with Some v => Ret v | None => Exc KeyError end
  | _ => Exc TypeError
  end.

(** Python's index normalisation: [-n <= i < 0] counts from the end. *)
Definition py_index {A} (l : list A) (i : Z) : pyr A :=
  let n := Z.of_nat (length l) in
  let i' := if (i <? 0)%Z then (i + n)%Z else i in
  if (0 <=? i')%Z && (i' <? n)%Z then
    match nth_error l (Z.to_nat i') with Some x => Ret x | None => Exc IndexError end
  else Exc IndexError.

(** [j[i]] for an int index. *)
Definition py_getitem_int (j : json) (i : Z) : pyr json :=
  match j with
  | JArr l => py_index l i
  | JStr s => match py_index (String.list_ascii_of_string s) i with
              | Ret c => Ret (JStr (String c EmptyString))
              | Exc e => Exc e
              end
  | JObj _ => Exc KeyError
  | JNull | JBool _ | JInt _ => Exc TypeError
  end.

(** ** [len(j)] and [for x in j] *)

Definition py_len (j : json) : pyr Z :=
  match j with
  | JArr l => Ret (Z.of_nat (length l))
  | JStr s => Ret (Z.of_nat (String.length s))
  | JObj kvs => Ret (Z.of_nat (length (obj_keys kvs)))
  | JNull | JBool _ | JInt _ => Exc TypeError
  end.

Definition py_iter (j : json) : pyr (list json) :=
  match j with
  | JArr l => Ret l
  | JStr s => Ret (map (fun c => JStr (String c EmptyString)) (String.list_ascii_of_string s))
  | JObj kvs => Ret (map JStr (obj_keys kvs))
  | JNull | JBool _ | JInt _ => Exc TypeError
  end.

(** ** The two [str] operations [parse_relays] applies to a value *)

(** The attribute lookup [j.find] of a [str] method: only a string has
    it, any other value raises AttributeError. *)
Definition py_str_method (j : json) : pyr string :=
  match j with
  | JStr s => Ret s
  | _ => Exc AttributeError
  end.

(** [s + j] for a string [s]: [j] must be a string too. *)
Definition py_str_add (s : string) (j : json) : pyr string :=
  match j with
  | JStr t => Ret (s +:+ t)
  | _ => Exc TypeError
  end.

(** ** Lemmas *)

Lemma obj_lookup_app k kvs kv :
  obj_lookup k (kvs ++ [kv]) =
  if String.eqb k kv.1 then Some kv.2 else obj_lookup k kvs.
Proof. unfold obj_lookup. now rewrite fold_left_app. Qed.

(** The last member named [k] gives the value of [k]. *)
Lemma obj_lookup_last k v pre post :
  Forall (fun kv => kv.1 <> k) post ->
  obj_lookup k (pre ++ (k, v) :: post) = Some v.
Proof.
  revert post. intros post. induction post as [|kv post IH] using rev_ind; intros Hpost.
  - rewrite obj_lookup_app. cbn. now rewrite String.eqb_refl.
  - apply Forall_app in Hpost as [Hpost Hkv]. inversion Hkv as [|? ? Hne _]; subst.
    replace (pre ++ (k, v) :: post ++ [kv]) with ((pre ++ (k, v) :: post) ++ [kv])
      by (rewrite <- app_assoc; reflexivity).
    rewrite obj_lookup_app.
    destruct (String.eqb_spec k kv.1) as [->|]; [congruence|]. now apply IH.
Qed.

Lemma py_index_lt {A} (l : list A) (i : Z) :
  (0 <= i < Z.of_nat (length l))%Z ->
  exists x, py_index l i = Ret x /\ nth_error l (Z.to_nat i) = Some x.
Proof.
  intros Hi. unfold py_index.
  assert ((i <? 0)%Z = false) as -> by (apply Z.ltb_ge; lia).
  assert ((0 <=? i)%Z && (i <? Z.of_nat (length l))%Z = true) as ->
    by (apply andb_true_intro; split; [apply Z.leb_le | apply Z.ltb_lt]; lia).
  destruct (nth_error l (Z.to_nat i)) eqn:E; [eauto|].
  apply nth_error_None in E. lia.
Qed.

Lemma py_index_In {A} (l : list A) (i : Z) (x : A) : py_index l i = Ret x -> In x l.
Proof.
  unfold py_index. destruct (_ && _); [|discriminate].
  destruct (nth_error l _) eqn:E; [|discriminate]. intros [= <-].
  eapply nth_error_In; eauto.
Qed.

(** The operations on JSON values raise only Python's own exceptions. *)
Lemma json_ops_builtin_exc :
  (forall k j e, py_contains k j = Exc e -> builtin_exc e) /\
  (forall j k e, py_getitem_str j k = Exc e -> builtin_exc e) /\
  (forall j i e, py_getitem_int j i = Exc e -> builtin_exc e) /\
  (forall j e, py_len j = Exc e -> builtin_exc e) /\
  (forall j e, py_iter j = Exc e -> builtin_exc e) /\
  (forall j e, py_str_method j = Exc e -> builtin_exc e) /\
  (forall s j e, py_str_add s j = Exc e -> builtin_exc e).
Proof.
  assert (Hidx : forall A (l : list A) i e, py_index l i = Exc e -> builtin_exc e).
  { intros A l i e. unfold py_index. repeat case_match; intros [= <-]; exact I. }
  split_and!; intros *; try destruct j; cbn; try (intros [= <-]; exact I);
    repeat case_match; try (intros [= <-]; exact I); try discriminate; eauto.
  intros [= <-]. eapply Hidx. eassumption.
Qed.

Lemma py_index_0_cons {A} (x : A) (l : list A) : py_index (x :: l) 0 = Ret x.
Proof. destruct (py_index_lt (x :: l) 0) as [y [-> Hy]]; [cbn [length]; lia | change (Z.to_nat 0) with 0%nat in Hy; cbn in Hy; congruence]. Qed.

Lemma nth_error_Forall2 {A B} (R : A -> B -> Prop) l1 l2 :
  Forall2 R l1 l2 -> forall n,
  match nth_error l1 n, nth_error l2 n with
  | Some x, Some y => R x y
  | None, None => True
  | _, _ => False
  end.
Proof.
  induction 1 as [|x y l1 l2 Hxy _ IH]; intros [|n]; cbn; first [exact I | exact Hxy | apply IH].
Qed.

(** Indexing two related lists gives related elements or the same error. *)
Lemma py_index_Forall2 {A B} (R : A -> B -> Prop) l1 l2 i :
  Forall2 R l1 l2 ->
  match py_index l1 i, py_index l2 i with
  | Ret x, Ret y => R x y
  | Exc e1, Exc e2 => e1 = e2
  | _, _ => False
  end.
Proof.
  intros H. unfold py_index. rewrite (Forall2_length _ _ _ H).
  destruct (_ && _); [|reflexivity].
  pose proof (nth_error_Forall2 R l1 l2 H (Z.to_nat (if (i <? 0)%Z then (i + Z.of_nat (length l2))%Z else i))) as Hn.
  repeat case_match; simplify_eq; auto.
Qed.
