(* ===== verification/World.v ===== *)
(** * The process state and the outside world

    [world] is the state of the Python process that the bot's code reads
    and changes: the [socket] module's default timeout and the sockets the
    code opened, the [random] module's seed and draws, the calls to
    [time.time] and [requests.get], the log, and the messages sent through
    the Bot API.  [env] holds the oracles for what the process does not
    decide: the network, the clock, the random generator's output, the
    Telegram server and the environment variables.  The primitive effects
    of those library modules are defined here once, in the monad [M], and
    the components call them as the code calls the modules. *)

From S2P Require Import Prelude PyCore Json.

(** ** The oracles *)

(** What [sock.connect_ex] does: it returns an errno (0 on success) or
    raises (e.g. [socket.gaierror], an OSError, on a name that does not
    resolve). *)
Inductive conn_result : Type :=
| ConnErrno (code : Z)
| ConnRaise (e : exc).

(** What [requests.get] does: a response with a status code and a body
    that [resp.json()] decodes (or [None] when it does not decode), or an
    exception. *)
Inductive http_result : Type :=
| HttpResponse (status : Z) (body : option json)
| HttpRaise (e : exc).

Record env : Type := {
  env_time : nat -> Z;                              (** [time.time()] at its k-th call *)
  env_randint : Z -> nat -> Z -> Z -> Z;            (** [randint(a, b)], k-th draw after [seed(s)] *)
  env_socket_ok : nat -> bool;                      (** the k-th [socket.socket()] gets a descriptor *)
  env_connect : nat -> option Z -> string -> Z -> conn_result;
                                                    (** k-th connect, socket timeout (ms), host, port *)
  env_http : nat -> http_result;                    (** the k-th [requests.get] *)
  env_send : nat -> option exc;                     (** the k-th Bot API call: [None] when it
                                                        goes through, else what it raises *)
  env_getenv : string -> option string              (** [os.getenv] *)
}.

(** ** The state *)

(** The [socket] module and the sockets of the program. *)
Record sock_state : Type := {
  ss_default_timeout : option Z;   (** [socket.getdefaulttimeout()], in ms *)
  ss_created : nat;                (** calls of [socket.socket()] *)
  ss_unclosed : nat;               (** sockets created and not closed by the code *)
  ss_connects : nat                (** calls of [connect_ex] *)
}.

(** A socket object: its number and the timeout it was created with. *)
Record socket : Type := { sock_id : nat; sock_timeout : option Z }.

(** The [random] module: the last seed and the draws made since. *)
Record rng_state : Type := { rs_seed : Z; rs_draws : nat }.

Inductive log_level : Type := DEBUG | ERROR.

Inductive log_entry : Type :=
| LogError (msg : string) (e : option exc)
| LogDebug (msg : string).

(** An HTTP GET as [requests.get] sends it: URL, timeout (s) and the
    User-Agent header. *)
Record http_request : Type := { req_url : string; req_timeout : Z; req_user_agent : string }.

(** A call of the Bot API, with the chat it goes to. *)
Inductive bot_call : Type :=
| SendMessage (chat : Z) (text : string)
| ReplyTo (chat : Z) (text : string)
| SendDocument (chat : Z) (caption : string) (document : string).

Record world : Type := {
  w_sock : sock_state;
  w_rng : rng_state;
  w_time_calls : nat;
  w_requests : list http_request;  (** the GETs sent, oldest first *)
  w_log_level : log_level;
  w_log : list log_entry;
  w_bot_calls : nat;
  w_sent : list bot_call           (** the Bot API calls that went through *)
}.

(** The state and exception monad of the process. *)
Abbreviation M := (st world exc).

(** A pure Python expression evaluated by the process. *)
Definition eval {A} (o : pyr A) : M A := lift o.

Definition set_sock (f : sock_state -> sock_state) (w : world) : world :=
  {| w_sock := f (w_sock w); w_rng := w_rng w; w_time_calls := w_time_calls w;
     w_requests := w_requests w; w_log_level := w_log_level w; w_log := w_log w;
     w_bot_calls := w_bot_calls w; w_sent := w_sent w |}.

Definition set_rng (r : rng_state) (w : world) : world :=
  {| w_sock := w_sock w; w_rng := r; w_time_calls := w_time_calls w;
     w_requests := w_requests w; w_log_level := w_log_level w; w_log := w_log w;
     w_bot_calls := w_bot_calls w; w_sent := w_sent w |}.

Definition tick_time (w : world) : world :=
  {| w_sock := w_sock w; w_rng := w_rng w; w_time_calls := S (w_time_calls w);
     w_requests := w_requests w; w_log_level := w_log_level w; w_log := w_log w;
     w_bot_calls := w_bot_calls w; w_sent := w_sent w |}.

Definition add_request (r : http_request) (w : world) : world :=
  {| w_sock := w_sock w; w_rng := w_rng w; w_time_calls := w_time_calls w;
     w_requests := w_requests w ++ [r]; w_log_level := w_log_level w; w_log := w_log w;
     w_bot_calls := w_bot_calls w; w_sent := w_sent w |}.

Definition add_log (e : log_entry) (w : world) : world :=
  {| w_sock := w_sock w; w_rng := w_rng w; w_time_calls := w_time_calls w;
     w_requests := w_requests w; w_log_level := w_log_level w; w_log := w_log w ++ [e];
     w_bot_calls := w_bot_calls w; w_sent := w_sent w |}.

Definition bot_step (sent : option bot_call) (w : world) : world :=
  {| w_sock := w_sock w; w_rng := w_rng w; w_time_calls := w_time_calls w;
     w_requests := w_requests w; w_log_level := w_log_level w; w_log := w_log w;
     w_bot_calls := S (w_bot_calls w);
     w_sent := match sent with Some c => w_sent w ++ [c] | None => w_sent w end |}.

(** ** The primitive effects *)

Section Effects.
Context (E : env).

(** [socket.socket(AF_INET, SOCK_STREAM)]: the new socket takes the
    module's current default timeout; without a descriptor, OSError. *)
Definition socket_socket : M socket := fun w =>
  let ss := w_sock w in
  let k := ss_created ss in
  if env_socket_ok E k then
    (Ret {| sock_id := k; sock_timeout := ss_default_timeout ss |},
     set_sock (fun ss => {| ss_default_timeout := ss_default_timeout ss;
                            ss_created := S k; ss_unclosed := S (ss_unclosed ss);
                            ss_connects := ss_connects ss |}) w)
  else
    (Exc OSError,
     set_sock (fun ss => {| ss_default_timeout := ss_default_timeout ss;
                            ss_created := S k; ss_unclosed := ss_unclosed ss;
                            ss_connects := ss_connects ss |}) w).

(** [socket.setdefaulttimeout(t)]: only sockets created later see it. *)
Definition socket_setdefaulttimeout (t : option Z) : M unit :=
  modify (set_sock (fun ss => {| ss_default_timeout := t; ss_created := ss_created ss;
                                 ss_unclosed := ss_unclosed ss;
                                 ss_connects := ss_connects ss |})).

(** [sock.connect_ex((host, port))], in the order of CPython's
    [getsockaddrarg]: a port that is not a C [int] raises OverflowError
    while the tuple is parsed; then the host is resolved, and a failure
    there ([ConnRaise], e.g. [socket.gaierror]) is raised; then a port
    outside [0, 65535] raises OverflowError; only then is the connection
    attempted, and its errno returned. *)
Definition sock_connect_ex (s : socket) (host : string) (port : Z) : M Z := fun w =>
  if (- 2 ^ 31 <=? port)%Z && (port <? 2 ^ 31)%Z then
    let ss := w_sock w in
    let w' := set_sock (fun ss => {| ss_default_timeout := ss_default_timeout ss;
                                     ss_created := ss_created ss;
                                     ss_unclosed := ss_unclosed ss;
                                     ss_connects := S (ss_connects ss) |}) w in
    match env_connect E (ss_connects ss) (sock_timeout s) host port with
    | ConnRaise e => (Exc e, w')
    | ConnErrno c =>
        if (0 <=? port)%Z && (port <=? 65535)%Z then (Ret c, w') else (Exc OverflowError, w')
    end
  else (Exc OverflowError, w).

(** [sock.close()]. *)
Definition sock_close (s : socket) : M unit :=
  modify (set_sock (fun ss => {| ss_default_timeout := ss_default_timeout ss;
                                 ss_created := ss_created ss;
                                 ss_unclosed := pred (ss_unclosed ss);
                                 ss_connects := ss_connects ss |})).

(** [time.time()]. *)
Definition time_time : M Z := fun w => (Ret (env_time E (w_time_calls w)), tick_time w).

(** [random.seed(a, 2)]. *)
Definition random_seed (a : Z) : M unit :=
  modify (set_rng {| rs_seed := a; rs_draws := 0 |}).

(** [random.randint(a, b)]: an empty range raises ValueError. *)
Definition random_randint (a b : Z) : M Z := fun w =>
  if (b <? a)%Z then (Exc ValueError, w)
  else
    let r := w_rng w in
    (Ret (env_randint E (rs_seed r) (rs_draws r) a b),
     set_rng {| rs_seed := rs_seed r; rs_draws := S (rs_draws r) |} w).

(** [requests.get(url, timeout=t, headers={"User-Agent": ua})]: urllib3
    refuses a timeout that is not positive with ValueError before sending. *)
Definition requests_get (url : string) (timeout : Z) (ua : string) : M (Z * option json) :=
  fun w =>
    if (timeout <=? 0)%Z then (Exc ValueError, w)
    else
      let w' := add_request {| req_url := url; req_timeout := timeout; req_user_agent := ua |} w in
      match env_http E (length (w_requests w)) with
      | HttpResponse st b => (Ret (st, b), w')
      | HttpRaise e => (Exc e, w')
      end.

(** [resp.json()]: a body that does not decode raises requests'
    JSONDecodeError, a RequestException. *)
Definition resp_json (body : option json) : pyr json :=
  match body with Some j => Ret j | None => Exc RequestException end.

(** [logging.error(msg, exc_info=e)]: always above the configured level. *)
Definition log_error (msg : string) (e : option exc) : M unit :=
  modify (add_log (LogError msg e)).

(** [logging.debug(msg)]: recorded only at level DEBUG. *)
Definition log_debug (msg : string) : M unit := fun w =>
  match w_log_level w with
  | DEBUG => (Ret tt, add_log (LogDebug msg) w)
  | ERROR => (Ret tt, w)
  end.

(** A Bot API call: it goes through, or raises what the oracle says
    (telebot's ApiTelegramException, or requests' ConnectionError or
    Timeout, which telebot lets through). *)
Definition bot_api (c : bot_call) : M unit := fun w =>
  match env_send E (w_bot_calls w) with
  | None => (Ret tt, bot_step (Some c) w)
  | Some e => (Exc e, bot_step None w)
  end.
End Effects.

(** The state of a freshly started process (after the logging set-up). *)
Definition init_world (lvl : log_level) : world :=
  {| w_sock := {| ss_default_timeout := None; ss_created := 0; ss_unclosed := 0;
                  ss_connects := 0 |};
     w_rng := {| rs_seed := 0; rs_draws := 0 |};
     w_time_calls := 0; w_requests := []; w_log_level := lvl; w_log := [];
     w_bot_calls := 0; w_sent := [] |}.

(** ** Lemmas on the primitives *)

(** The number of [randint] draws since the last seed. *)
Definition draws (w : world) : nat := rs_draws (w_rng w).

Lemma ret_spec_eval {A} (o : pyr A) : ret_spec (eval o) (fun a => o = Ret a).
Proof. apply ret_spec_lift. auto. Qed.

Lemma cost_le_eval {A} m (o : pyr A) : cost_le m (eval o) 0.
Proof. apply cost_le_lift. Qed.

Lemma randint_draws E a b : cost_le draws (random_randint E a b) 1.
Proof. intros w. unfold random_randint, draws. destruct (b <? a)%Z; cbn; lia. Qed.

#[export] Hint Resolve cost_le_eval randint_draws : t2r.

Lemma randint_builtin_exc E a b : exc_spec (random_randint E a b) builtin_exc.
Proof. intros w e w'. unfold random_randint. destruct (b <? a)%Z; intros [= <- _]; exact I. Qed.

Lemma eval_builtin_exc {A} (o : pyr A) :
  (forall e, o = Exc e -> builtin_exc e) -> exc_spec (eval o) builtin_exc.
Proof. apply exc_spec_lift. Qed.

(** The part of the state that the sampling code leaves alone: the seed,
    the clock, the HTTP requests, the log level and the Bot API calls.
    (It changes the sockets, the draw counter and the log.) *)
Definition io_part (w : world) :=
  (rs_seed (w_rng w), w_time_calls w, w_requests w, w_log_level w, w_bot_calls w, w_sent w).

Lemma keeps_eval {A} (f : world -> A) {B} (o : pyr B) : keeps f (eval o).
Proof. apply keeps_lift. Qed.

Lemma randint_io E a b : keeps io_part (random_randint E a b).
Proof. intros w. unfold random_randint. destruct (b <? a)%Z; reflexivity. Qed.

Lemma log_error_io msg e : keeps io_part (log_error msg e).
Proof. intros w. reflexivity. Qed.

#[export] Hint Resolve keeps_eval randint_io log_error_io : t2r.

Lemma w_bot_calls_add_log l w : w_bot_calls (add_log l w) = w_bot_calls w.
Proof. reflexivity. Qed.

#[export] Hint Rewrite w_bot_calls_add_log : t2r_rw.

(** A deterministic environment for concrete runs: [randint(a, b)]
    returns [a], every socket gets a descriptor, [up host port] decides
    whether a connection succeeds (errno 111, refused, otherwise), every
    HTTP request gets [http], every Bot API call goes through, and the
    environment variables are [vars]. *)
Definition demo_env (up : string -> Z -> bool) (http : http_result)
           (vars : list (string * string)) : env := {|
  env_time := fun k => Z.of_nat k;
  env_randint := fun _ _ a _ => a;
  env_socket_ok := fun _ => true;
  env_connect := fun _ _ h p => if up h p then ConnErrno 0 else ConnErrno 111;
  env_http := fun _ => http;
  env_send := fun _ => None;
  env_getenv := fun k => match find (fun kv => String.eqb kv.1 k) vars with
                         | Some kv => Some kv.2
                         | None => None
                         end |}.

(** The Bot API part of the state. *)
Definition bot_part (w : world) := (w_bot_calls w, w_sent w).

Lemma keeps_io_bot {A} (c : M A) : keeps io_part c -> keeps bot_part c.
Proof.
  intros H w. specialize (H w). unfold io_part in H. unfold bot_part.
  injection H as _ _ _ _ -> ->. reflexivity.
Qed.
