(* ===== verification/PortFilter.v ===== *)
(** * The port filter: [check_port] (src/app/main.py, lines 26-110)

    [check_port(addr)] splits the address on [":"], converts the second
    field with [int()] and answers whether that port is outside the fixed
    list [bad_ports].  A malformed address is not rejected here: without a
    colon the subscription [[1]] raises IndexError, and a second field that
    is not an integer makes [int()] raise ValueError.  The list has 80
    ports; 136, 138 and 445 are not among them. *)

From S2P Require Import Prelude PyCore.

Module PortFilter.

(** The deny list, in the order of the source (lines 27-108). *)
Definition bad_ports : list Z :=
  [1; 7; 9; 11; 13; 15; 17; 19; 20; 21; 22; 23; 25; 37; 42; 43; 53; 69; 77; 79;
   87; 95; 101; 102; 103; 104; 109; 110; 111; 113; 115; 117; 119; 123; 135; 137;
   139; 143; 161; 179; 389; 427; 465; 512; 513; 514; 515; 526; 530; 531; 532;
   540; 548; 554; 556; 563; 587; 601; 636; 989; 990; 993; 995; 1719; 1720; 1723;
   2049; 3659; 4045; 5060; 5061; 6000; 6566; 6665; 6666; 6667; 6668; 6669; 6697;
   10080]%Z.

(** [return int(addr.split(":")[1]) not in bad_ports] (line 110). *)
Definition check_port (addr : string) : pyr bool :=
  match nth_error (py_split ":"%char addr) 1 with
  | None => Exc IndexError
  | Some field =>
      match py_int field with
      | Ret port => Ret (negb (existsb (Z.eqb port) bad_ports))
      | Exc e => Exc e
      end
  end.

(** The port field of an address, when [check_port] can read one. *)
Definition port_field (addr : string) : option Z :=
  match nth_error (py_split ":"%char addr) 1 with
  | Some field => match py_int field with Ret p => Some p | Exc _ => None end
  | None => None
  end.

Lemma check_port_port_field addr p :
  port_field addr = Some p -> check_port addr = Ret (negb (existsb (Z.eqb p) bad_ports)).
Proof.
  unfold port_field, check_port.
  destruct (nth_error _ 1) as [field|]; [|discriminate].
  destruct (py_int field); congruence.
Qed.

Lemma py_int_raises s e : py_int s = Exc e -> e = ValueError.
Proof. unfold py_int. destruct (py_int_opt s); congruence. Qed.

Lemma existsb_bad_ports p : existsb (Z.eqb p) bad_ports = bool_decide (In p bad_ports).
Proof.
  apply Bool.eq_iff_eq_true. rewrite existsb_Zeqb_In, bool_decide_eq_true. reflexivity.
Qed.

(** ** Properties *)

(** C4: [check_port] answers True exactly when the address has a port
    field that [int()] reads and that port is not on the deny list. *)
Theorem check_port_true_iff addr :
  check_port addr = Ret true <-> exists p, port_field addr = Some p /\ ~ In p bad_ports.
Proof.
  unfold port_field, check_port.
  destruct (nth_error _ 1) as [field|]; [|split; [discriminate | intros [p [[=] _]]]].
  destruct (py_int field) as [p|e]; [|split; [discriminate | intros [q [[=] _]]]].
  rewrite existsb_bad_ports. split.
  - intros [= H]. exists p. split; [reflexivity|].
    intros Hin. rewrite bool_decide_eq_true_2 in H by exact Hin. discriminate.
  - intros [q [[= <-] Hq]]. now rewrite bool_decide_eq_false_2.
Qed.

(** C21: [check_port] raises IndexError exactly when the address has no
    colon, and ValueError exactly when the field after the first colon is
    not an integer literal; it raises nothing else. *)
Theorem check_port_raises addr e :
  check_port addr = Exc e <->
  (e = IndexError /\ find_index ":"%char addr = None) \/
  (e = ValueError /\ exists field, nth_error (py_split ":"%char addr) 1 = Some field /\
                                   py_int_opt field = None).
Proof.
  rewrite <- py_split_second. unfold check_port.
  destruct (nth_error _ 1) as [field|].
  - unfold py_int. destruct (py_int_opt field) as [p|] eqn:Hp.
    + split; [discriminate|]. intros [[_ [=]] | [_ [f [[= <-] Hf]]]]. congruence.
    + split; [intros [= <-]; right; eauto|].
      intros [[_ [=]] | [-> _]]. reflexivity.
  - split; [intros [= <-]; left; auto|]. intros [[-> _] | [_ [f [[=] _]]]]. reflexivity.
Qed.

(** C22: on a well-formed ["host:port"] whose port is printed by
    [str(int)], [check_port] answers whether the port is off the list: so
    every listed port is refused and every other port is accepted. *)
Theorem check_port_host_port host p :
  find_index ":"%char host = None ->
  check_port (host +:+ String ":"%char (py_str_int p)) = Ret (negb (bool_decide (In p bad_ports))).
Proof.
  intros Hhost. unfold check_port.
  rewrite py_split_app_sep, py_split_no_sep by (exact Hhost || apply py_str_int_no_colon).
  cbn [nth_error]. now rewrite py_int_str, existsb_bad_ports.
Qed.

Lemma check_port_host_port_witness :
  find_index ":"%char "1.2.3.4" = None /\
  check_port ("1.2.3.4" +:+ String ":"%char (py_str_int 22)) = Ret false /\
  check_port ("1.2.3.4" +:+ String ":"%char (py_str_int 9001)) = Ret true.
Proof.
  split; [reflexivity|]. split.
  - rewrite (check_port_host_port "1.2.3.4" 22) by reflexivity.
    now replace (bool_decide (In 22%Z bad_ports)) with true
      by (rewrite <- existsb_bad_ports; vm_compute; reflexivity).
  - rewrite (check_port_host_port "1.2.3.4" 9001) by reflexivity.
    now replace (bool_decide (In 9001%Z bad_ports)) with false
      by (rewrite <- existsb_bad_ports; vm_compute; reflexivity).
Defined.

(** The ports 445, 136 and 138 pass the filter. *)
Example check_port_445 :
  check_port "1.2.3.4:445" = Ret true /\ check_port "1.2.3.4:136" = Ret true /\
  check_port "1.2.3.4:138" = Ret true.
Proof. vm_compute. auto. Qed.

End PortFilter.
