(* ===== verification/Prober.v ===== *)
(** * The reachability prober: [is_socket_open] (src/app/main.py, lines 114-133)

    [is_socket_open(addr)] returns False for [None] and for an address
    without a colon; otherwise, inside one [try], it creates a TCP socket,
    sets the module-wide default timeout to 2 seconds, converts the port
    with [int()], calls [connect_ex] and closes the socket, and answers
    whether [connect_ex] returned 0.  Any exception of that block is logged
    and the function answers False.

    The order of the calls matters: the socket is created before
    [socket.setdefaulttimeout(2.0)], so a socket takes the default that the
    previous call left, and the very first socket of the process has no
    timeout; and [sock.close()] is skipped when [int()] or [connect_ex]
    raises. *)

From S2P Require Import Prelude PyCore Json World.

Module Prober.
Section WithEnv.
Context (E : env).

(** The timeout set by line 125, in milliseconds. *)
Definition probe_default_timeout : Z := 2000.

Definition is_socket_open (addr : option string) : M bool :=
  match addr with
  | None => sret false
  | Some a =>
      let addrs := py_split ":"%char a in
      if length addrs <? 2 then sret false
      else
        try_except
          (let* sock := socket_socket E in
           let* _ := socket_setdefaulttimeout (Some probe_default_timeout) in
           let* port := eval (py_int (nth 1 addrs EmptyString)) in
           let* result := sock_connect_ex E sock (nth 0 addrs EmptyString) port in
           let* _ := sock_close sock in
           sret (bool_decide (result = 0%Z)))
          (fun ex => let* _ := log_error "Unhandled is_socket_open" (Some ex) in sret false)
  end.

(** [probe_cases a] runs [is_socket_open] on every path: it splits on the
  shape of [a.split(":")], the descriptor oracle, [int()], the port
  range and the connection oracle. *)
Local Ltac probe_cases a :=
unfold is_socket_open, try_except, socket_socket, socket_setdefaulttimeout,
  sock_connect_ex, sock_close, log_error, modify, eval, lift, sbind, sret;
cbn; destruct (py_split ":"%char a) as [|?h [|?f ?r]] eqn:?; cbn;
repeat (case_match; unfold set_sock, add_log in *; simpl in *; simplify_eq);
simpl in *.

Local Ltac probe_finish :=
merge_eqs; bool_to_prop; simplify_eq; try case_bool_decide; simplify_eq;
try (eexists _, _, _, _; split_and!; eauto; lia); try lia; try congruence.

(** C10: [is_socket_open] never raises: every failure of the socket
  calls, of [int()] and of the connection ends in [return False]. *)
Theorem is_socket_open_no_raise addr : no_raise (is_socket_open addr).
Proof.
intros w. destruct addr as [a|]; [|eexists; reflexivity].
probe_cases a; eexists; reflexivity.
Qed.

(** C5: [is_socket_open] answers True exactly when the address has a
  host and a port field, [int()] reads the port, the port is in
  [0, 65535], a socket is created, and the connection attempt, made with
  the default timeout in force before the call, returns 0. *)
Theorem is_socket_open_true_iff a w :
fst (is_socket_open (Some a) w) = Ret true <->
exists host field rest port,
  py_split ":"%char a = host :: field :: rest /\ py_int field = Ret port /\
  (0 <= port <= 65535)%Z /\ env_socket_ok E (ss_created (w_sock w)) = true /\
  env_connect E (ss_connects (w_sock w)) (ss_default_timeout (w_sock w)) host port
    = ConnErrno 0.
Proof.
probe_cases a.
all: split; [intros [= Hb] | intros (?&?&?&?&[= <- <- <-]&?&?&?&?)]; probe_finish.
Qed.

(** C11: the call leaves the module's default timeout at 2 s as soon as it
  created a socket, and unchanged otherwise; since the socket is created
  before the default is set, the first socket of a process has none. *)
Theorem is_socket_open_default_timeout a w :
ss_default_timeout (w_sock (snd (is_socket_open (Some a) w))) =
if (2 <=? length (py_split ":"%char a)) && env_socket_ok E (ss_created (w_sock w))
then Some probe_default_timeout else ss_default_timeout (w_sock w).
Proof. probe_cases a; reflexivity. Qed.

(** C12: a socket stays open after the call only when an exception was
  raised after its creation, and then the exception was logged; a
  probe that answers True has closed its socket. *)
Theorem is_socket_open_release a w :
let w' := snd (is_socket_open (Some a) w) in
(ss_unclosed (w_sock w') = ss_unclosed (w_sock w) \/
 (ss_unclosed (w_sock w') = S (ss_unclosed (w_sock w)) /\
  exists e, w_log w' = w_log w ++ [LogError "Unhandled is_socket_open" (Some e)])) /\
(fst (is_socket_open (Some a) w) = Ret true -> ss_unclosed (w_sock w') = ss_unclosed (w_sock w)).
Proof. probe_cases a; split; eauto; discriminate. Qed.

(** The prober does not touch the random generator. *)
Lemma is_socket_open_rng addr w : w_rng (snd (is_socket_open addr w)) = w_rng w.
Proof. destruct addr as [a|]; [probe_cases a|]; reflexivity. Qed.

(** Nor the clock, the seed, the HTTP requests or the Bot API calls. *)
Lemma is_socket_open_io addr : keeps io_part (is_socket_open addr).
Proof. intros w. destruct addr as [a|]; [probe_cases a|]; reflexivity. Qed.

Lemma is_socket_open_draws addr : cost_le draws (is_socket_open addr) 0.
Proof. intros w. unfold draws. rewrite is_socket_open_rng. lia. Qed.

(** What a True answer guarantees about the address, in a form that does
  not mention the state. *)
Definition probe_ok (a : string) : Prop :=
exists host field rest port k t,
  py_split ":"%char a = host :: field :: rest /\ py_int field = Ret port /\
  (0 <= port <= 65535)%Z /\ env_connect E k t host port = ConnErrno 0.

Lemma is_socket_open_ret_spec a :
ret_spec (is_socket_open (Some a)) (fun b => b = true -> probe_ok a).
Proof.
intros w b w' Hrun ->.
assert (Ht : fst (is_socket_open (Some a) w) = Ret true) by now rewrite Hrun.
apply is_socket_open_true_iff in Ht as (host & field & rest & port & ? & ? & ? & _ & ?).
exists host, field, rest, port, (ss_connects (w_sock w)), (ss_default_timeout (w_sock w)).
auto.
Qed.

End WithEnv.
End Prober.
