(* ===== verification/Sampler.v ===== *)
(** * The relay sampler: [parse_relays] (src/app/main.py, lines 159-179)

    [parse_relays(json, relays_number)] checks that the decoded document
    has a ["relays"] member, sets [counter] to its length, and while
    [counter > 0] and fewer than [relays_number] lines were accepted, draws
    an index with [random.randint], walks the drawn relay's
    ["or_addresses"], appends ["addr fingerprint"] for every address
    without ['['] whose port passes [check_port] and that [is_socket_open]
    reaches, and decrements [counter].  It returns the lines joined by
    newlines.

    [scan_addresses] is the [for] loop of lines 174-176, [sample_loop] the
    [while] loop of lines 171-177, [parse_relays] the function.  The
    module [SelectSpec] states the selection the spec describes on typed relay
    records, in which a malformed address is skipped; [parse_relays]
    implements it on every directory whose addresses are well formed. *)

From S2P Require Import Prelude PyCore Json World PortFilter Prober.
Import PortFilter Prober.

Module Sampler.

Definition newline : string := String (Ascii.ascii_of_nat 10) EmptyString.

Section WithEnv.
Context (E : env).

(** [for addr in relay["or_addresses"]:
       if addr.find("[") == -1 and check_port(addr) and is_socket_open(addr):
           filtered_relays.append(addr + " " + relay["fingerprint"])] *)
Fixpoint scan_addresses (relay : json) (addrs : list json) (filtered : list string)
  : M (list string) :=
  match addrs with
  | [] => sret filtered
  | addr :: rest =>
      let* s := eval (py_str_method addr) in
      if bool_decide (py_find "["%char s = (-1)%Z) then
        (let* ok := eval (check_port s) in
         if ok then
           (let* up := is_socket_open E (Some s) in
            if up then
              (let* fp := eval (py_getitem_str relay "fingerprint") in
               let* line := eval (py_str_add (s +:+ " ") fp) in
               scan_addresses relay rest (filtered ++ [line]))
            else scan_addresses relay rest filtered)
         else scan_addresses relay rest filtered)
      else scan_addresses relay rest filtered
  end.

(** One pass of the [while] body (lines 172-176): draw, look the relay
    up, scan its addresses; [counter -= 1] is the recursion below. *)
Definition sample_step (doc : json) (filtered : list string) : M (list string) :=
  let* rels := eval (py_getitem_str doc "relays") in
  let* n := eval (py_len rels) in
  let* rnd := random_randint E 0 (n - 1) in
  let* rels' := eval (py_getitem_str doc "relays") in
  let* relay := eval (py_getitem_int rels' rnd) in
  let* addrs_j := eval (py_getitem_str relay "or_addresses") in
  let* addrs := eval (py_iter addrs_j) in
  scan_addresses relay addrs filtered.

(** [while counter > 0 and len(filtered_relays) < relays_number:
       ...; counter -= 1] (lines 171-177). *)
Fixpoint sample_loop (doc : json) (relays_number : Z) (counter : nat)
         (filtered : list string) : M (list string) :=
  match counter with
  | O => sret filtered
  | S counter' =>
      if bool_decide (Z.of_nat (length filtered) < relays_number)%Z then
        (let* filtered' := sample_step doc filtered in
         sample_loop doc relays_number counter' filtered')
      else sret filtered
  end.

(** The whole function (lines 159-179). *)
Definition parse_relays (doc : json) (relays_number : Z) : M string :=
  let* has := eval (py_contains "relays" doc) in
  if negb has then raise (FetchedError (ArgStr "Fetching error, relays not found"))
  else
    (let* rels := eval (py_getitem_str doc "relays") in
     let* counter := eval (py_len rels) in
     let* filtered := sample_loop doc relays_number (Z.to_nat counter) [] in
     sret (py_join newline filtered)).

(** ** Lemmas on the loops *)

(** An address the [for] loop keeps: no ['['], a port [check_port]
  accepts, and a probe that reached it. *)
Definition accepted_addr (s : string) : Prop :=
py_find "["%char s = (-1)%Z /\ check_port s = Ret true /\ probe_ok E s.

(** A line built from an accepted address of [relay]. *)
Definition relay_line (relay : json) (addrs : list json) (line : string) : Prop :=
exists s fp, In (JStr s) addrs /\ accepted_addr s /\
  py_getitem_str relay "fingerprint" = Ret (JStr fp) /\ line = (s +:+ " ") +:+ fp.

Definition scan_post relay addrs filtered out : Prop :=
exists new, out = filtered ++ new /\ length new <= length addrs /\
            Forall (relay_line relay addrs) new.

Lemma relay_line_cons relay a addrs line :
relay_line relay addrs line -> relay_line relay (a :: addrs) line.
Proof. intros (s & fp & ? & ?). exists s, fp. simpl. auto. Qed.

Lemma scan_post_skip relay a addrs filtered out :
scan_post relay addrs filtered out -> scan_post relay (a :: addrs) filtered out.
Proof.
intros (new & -> & Hlen & Hall). exists new. simpl. split_and!; [done | lia |].
eapply Forall_impl; [exact Hall | apply relay_line_cons].
Qed.

Lemma scan_post_take relay s addrs filtered line out :
relay_line relay (JStr s :: addrs) line ->
scan_post relay addrs (filtered ++ [line]) out -> scan_post relay (JStr s :: addrs) filtered out.
Proof.
intros Hline (new & -> & Hlen & Hall). exists (line :: new).
rewrite <- app_assoc. simpl. split_and!; [done | lia |].
constructor; [exact Hline|]. eapply Forall_impl; [exact Hall | apply relay_line_cons].
Qed.

(** The [for] loop only appends, at most one line per address, and each
  line is ["addr fingerprint"] for an accepted address of the relay. *)
Lemma scan_addresses_spec relay addrs filtered :
ret_spec (scan_addresses relay addrs filtered) (scan_post relay addrs filtered).
Proof.
revert filtered. induction addrs as [|addr rest IH]; intros filtered; cbn [scan_addresses].
{ apply ret_spec_ret. exists []. rewrite app_nil_r. auto. }
apply (ret_spec_bind _ _ _ _ (ret_spec_eval _)). intros s Hs.
destruct addr; try discriminate. injection Hs as ->.
case_bool_decide as Hb;
  [|eapply ret_spec_weaken; [apply IH | apply scan_post_skip]].
apply (ret_spec_bind _ _ _ _ (ret_spec_eval _)). intros [] Hok;
  [|eapply ret_spec_weaken; [apply IH | apply scan_post_skip]].
apply (ret_spec_bind _ _ _ _ (is_socket_open_ret_spec E s)). intros [] Hup;
  [|eapply ret_spec_weaken; [apply IH | apply scan_post_skip]].
apply (ret_spec_bind _ _ _ _ (ret_spec_eval _)). intros fp Hfp.
apply (ret_spec_bind _ _ _ _ (ret_spec_eval _)). intros line Hline.
eapply ret_spec_weaken; [apply IH|]. intros out Hout.
destruct fp; try discriminate. injection Hline as <-.
eapply scan_post_take; [|exact Hout].
exists s, s0. split_and!; [left; done | split_and!; auto | done | done].
Qed.

Lemma cost_le_bind0 {A B} m (c : M A) (f : A -> M B) k :
cost_le m c 0 -> (forall a, cost_le m (f a) k) -> cost_le m (sbind c f) k.
Proof. intros Hc Hf. apply (cost_le_bind m c f 0 k Hc Hf). Qed.

(** The [for] loop draws no random number. *)
Lemma scan_addresses_draws relay addrs filtered :
cost_le draws (scan_addresses relay addrs filtered) 0.
Proof.
revert filtered. induction addrs as [|addr rest IH]; intros filtered; cbn [scan_addresses].
{ apply cost_le_ret. }
apply cost_le_bind0; [apply cost_le_eval|]. intros s.
case_bool_decide; [|apply IH].
apply cost_le_bind0; [apply cost_le_eval|]. intros [|]; [|apply IH].
apply cost_le_bind0; [apply is_socket_open_draws|]. intros [|]; [|apply IH].
apply cost_le_bind0; [apply cost_le_eval|]. intros fp.
apply cost_le_bind0; [apply cost_le_eval|]. intros line. apply IH.
Qed.

(** One pass of the [while] body draws exactly one random number at most. *)
Lemma sample_step_draws doc filtered : cost_le draws (sample_step doc filtered) 1.
Proof.
unfold sample_step.
apply cost_le_bind0; [apply cost_le_eval|]. intros rels.
apply cost_le_bind0; [apply cost_le_eval|]. intros n.
apply (cost_le_bind draws _ _ 1 0); [apply randint_draws|]. intros rnd.
repeat (apply cost_le_bind0; [apply cost_le_eval|]; intros ?).
apply scan_addresses_draws.
Qed.

(** The [while] loop draws at most [counter] random numbers. *)
Lemma sample_loop_draws doc n counter filtered :
cost_le draws (sample_loop doc n counter filtered) counter.
Proof.
revert filtered. induction counter as [|c IH]; intros filtered; cbn [sample_loop].
{ apply cost_le_ret. }
case_bool_decide; [|eapply cost_le_mono; [apply cost_le_ret | lia]].
apply (cost_le_bind draws _ _ 1 c); [apply sample_step_draws | apply IH].
Qed.

(** An invariant of the list of accepted lines that every pass of the
  body preserves holds when the [while] loop exits. *)
Lemma sample_loop_inv (Inv : list string -> Prop) doc n :
(forall filtered, Inv filtered -> (Z.of_nat (length filtered) < n)%Z ->
                  ret_spec (sample_step doc filtered) Inv) ->
forall counter filtered, Inv filtered -> ret_spec (sample_loop doc n counter filtered) Inv.
Proof.
intros Hstep counter. induction counter as [|c IH]; intros filtered Hinv; cbn [sample_loop].
{ now apply ret_spec_ret. }
case_bool_decide as Hlt; [|now apply ret_spec_ret].
eapply ret_spec_bind; [apply (Hstep _ Hinv Hlt)|]. intros f' Hf'. now apply IH.
Qed.

(** ** Properties of [parse_relays] *)

(** The relay count [len(json["relays"])], 0 when it raises. *)
Definition relay_count (doc : json) : nat :=
match py_getitem_str doc "relays" with
| Ret rels => match py_len rels with Ret n => Z.to_nat n | Exc _ => 0 end
| Exc _ => 0
end.

(** A line [parse_relays] may output: built from an accepted address of
  a relay found at some index of [json["relays"]]. *)
Definition doc_line (doc : json) (line : string) : Prop :=
exists rels i relay aj addrs,
  py_getitem_str doc "relays" = Ret rels /\ py_getitem_int rels i = Ret relay /\
  py_getitem_str relay "or_addresses" = Ret aj /\ py_iter aj = Ret addrs /\
  relay_line relay addrs line.

Lemma sample_step_lines doc filtered :
ret_spec (sample_step doc filtered)
  (fun out => exists new, out = filtered ++ new /\ Forall (doc_line doc) new).
Proof.
unfold sample_step.
apply (ret_spec_bind _ _ _ _ (ret_spec_eval _)). intros rels Hrels.
apply (ret_spec_bind _ _ _ _ (ret_spec_eval _)). intros n Hn.
apply (ret_spec_bind _ _ (fun _ => True)); [intros ???; auto|]. intros rnd _.
apply (ret_spec_bind _ _ _ _ (ret_spec_eval _)). intros rels' Hrels'.
apply (ret_spec_bind _ _ _ _ (ret_spec_eval _)). intros relay Hrelay.
apply (ret_spec_bind _ _ _ _ (ret_spec_eval _)). intros aj Haj.
apply (ret_spec_bind _ _ _ _ (ret_spec_eval _)). intros addrs Haddrs.
eapply ret_spec_weaken; [apply scan_addresses_spec|]. intros out (new & -> & _ & Hall).
exists new. split; [done|]. eapply Forall_impl; [exact Hall|].
intros line Hline. exists rels', rnd, relay, aj, addrs. auto.
Qed.

(** C3: termination with a bounded number of draws: however the run
  ends, [parse_relays] calls [random.randint] at most [len(relays)]
  times, since each pass of the [while] loop draws once and decrements
  [counter], which starts at [len(relays)]. *)
Theorem parse_relays_draws doc n : cost_le draws (parse_relays doc n) (relay_count doc).
Proof.
intros w. unfold parse_relays, relay_count, sbind, eval, lift.
destruct (py_contains "relays" doc) as [[|]|e]; cbn; try lia.
destruct (py_getitem_str doc "relays") as [rels|e]; cbn; try lia.
destruct (py_len rels) as [len|e]; cbn; try lia.
pose proof (sample_loop_draws doc n (Z.to_nat len) [] w) as H.
destruct (sample_loop doc n (Z.to_nat len) [] w) as [[] w']; cbn in *; lia.
Qed.

(** What holds of every list the [while] loop can return, started from
  no lines, holds of the lines [parse_relays] joins. *)
Lemma parse_relays_via_loop doc n (P : list string -> Prop) :
(forall c, ret_spec (sample_loop doc n c []) P) ->
ret_spec (parse_relays doc n) (fun out => exists lines, out = py_join newline lines /\ P lines).
Proof.
intros Hloop. unfold parse_relays.
apply (ret_spec_bind _ _ _ _ (ret_spec_eval _)). intros [] _; cbn [negb];
  [|apply ret_spec_raise].
apply (ret_spec_bind _ _ _ _ (ret_spec_eval _)). intros rels _.
apply (ret_spec_bind _ _ _ _ (ret_spec_eval _)). intros c _.
eapply ret_spec_bind; [apply Hloop|]. intros lines Hl. apply ret_spec_ret. eauto.
Qed.

(** C1: every line of the output is ["addr fingerprint"] for an address
  [addr] listed in the ["or_addresses"] of a relay of [json["relays"]],
  with [fingerprint] that relay's ["fingerprint"], where [addr] has no
  ['['] (no IPv6 literal), has a port that [check_port] accepts and
  that lies in [0, 65535], and was reached by a connection attempt that
  returned 0. *)
Theorem parse_relays_lines doc n :
ret_spec (parse_relays doc n)
  (fun out => exists lines, out = py_join newline lines /\ Forall (doc_line doc) lines).
Proof.
apply parse_relays_via_loop. intros c.
apply (sample_loop_inv (Forall (doc_line doc))); [|constructor].
intros filtered Hall _.
eapply ret_spec_weaken; [apply sample_step_lines|]. intros out (new & -> & Hnew).
apply Forall_app; auto.
Qed.

Section Bound.
(** The document's relays, and a bound on the addresses of each. *)
Context (doc : json) (rl : list json) (K : nat).
Hypothesis Hrels : py_getitem_str doc "relays" = Ret (JArr rl).
Hypothesis HK : forall relay aj addrs, In relay rl ->
py_getitem_str relay "or_addresses" = Ret aj -> py_iter aj = Ret addrs -> length addrs <= K.

Lemma sample_step_len filtered :
ret_spec (sample_step doc filtered)
  (fun out => exists new, out = filtered ++ new /\ length new <= K).
Proof.
unfold sample_step.
apply (ret_spec_bind _ _ _ _ (ret_spec_eval _)). intros rels _.
apply (ret_spec_bind _ _ _ _ (ret_spec_eval _)). intros n _.
apply (ret_spec_bind _ _ (fun _ => True)); [intros ???; auto|]. intros rnd _.
apply (ret_spec_bind _ _ _ _ (ret_spec_eval _)). intros rels' Hrels'.
rewrite Hrels in Hrels'. injection Hrels' as <-.
apply (ret_spec_bind _ _ _ _ (ret_spec_eval _)). intros relay Hrelay.
apply py_index_In in Hrelay.
apply (ret_spec_bind _ _ _ _ (ret_spec_eval _)). intros aj Haj.
apply (ret_spec_bind _ _ _ _ (ret_spec_eval _)). intros addrs Haddrs.
eapply ret_spec_weaken; [apply scan_addresses_spec|]. intros out (new & -> & Hlen & _).
exists new. split; [done|]. specialize (HK relay aj addrs Hrelay Haj Haddrs).
lia.
Qed.

(** C8: the output has at most [relays_number - 1 + K] lines, [K]
  bounding the addresses of one relay, and none when [relays_number]
  is not positive: the loop stops only between two relays, so the
  last drawn relay may take the count past [relays_number]. *)
Theorem parse_relays_count n :
ret_spec (parse_relays doc n)
  (fun out => exists lines, out = py_join newline lines /\
     (Z.of_nat (length lines) <= Z.max 0 (n - 1) + Z.of_nat K)%Z /\
     ((n <= 0)%Z -> lines = [])).
Proof.
apply parse_relays_via_loop. intros c.
apply (sample_loop_inv (fun l => (Z.of_nat (length l) <= Z.max 0 (n - 1) + Z.of_nat K)%Z /\
                                 ((n <= 0)%Z -> l = [])));
  [|split; [cbn; lia | done]].
intros filtered _ Hlt.
eapply ret_spec_weaken; [apply sample_step_len|]. intros out (new & -> & Hnew).
rewrite length_app. split; [lia|]. intros Hn. lia.
Qed.
End Bound.

(** ** What the sampling leaves unchanged *)

Local Ltac keeps_step :=
  match goal with
  | |- keeps _ (sbind _ _) => apply keeps_bind; [|intros ?]
  | |- keeps _ (if ?b then _ else _) => destruct b
  | |- keeps io_part (is_socket_open _ _) => apply is_socket_open_io
  | |- _ => solve [auto with t2r]
  end.

Lemma parse_relays_io doc n : keeps io_part (parse_relays doc n).
Proof.
  assert (Hscan : forall relay addrs f, keeps io_part (scan_addresses relay addrs f)).
  { intros relay addrs. induction addrs as [|a rest IH]; intros f; cbn [scan_addresses];
      repeat (keeps_step || apply IH). }
  assert (Hloop : forall c f, keeps io_part (sample_loop doc n c f)).
  { intros c. induction c as [|c IH]; intros f; cbn [sample_loop]; unfold sample_step;
      repeat (keeps_step || apply IH || apply Hscan). }
  unfold parse_relays. repeat (keeps_step || apply Hloop).
Qed.

(** ** Which exceptions escape *)

Lemma check_port_builtin_exc a e : check_port a = Exc e -> builtin_exc e.
Proof. intros H. apply check_port_raises in H as [[-> _]|[-> _]]; exact I. Qed.

(** [nf_step] discharges one statement of the loops: a pure expression,
  a draw, a probe or a recursive call, each of which raises at most a
  Python exception. *)
Local Ltac nf_step :=
match goal with
| |- exc_spec (sbind _ _) _ => apply exc_spec_bind; [|intros ?]
| |- exc_spec (eval (check_port _)) _ => apply eval_builtin_exc, check_port_builtin_exc
| |- exc_spec (eval _) _ =>
    apply eval_builtin_exc; intros ?; apply json_ops_builtin_exc
| |- exc_spec (random_randint _ _ _) _ => apply randint_builtin_exc
| |- exc_spec (is_socket_open _ _) _ => apply exc_spec_no_raise, is_socket_open_no_raise
| |- exc_spec (sret _) _ => apply exc_spec_ret
| |- exc_spec (if ?b then _ else _) _ => destruct b
end.

Lemma scan_addresses_builtin_exc relay addrs filtered :
exc_spec (scan_addresses relay addrs filtered) builtin_exc.
Proof.
revert filtered. induction addrs as [|addr rest IH]; intros filtered; cbn [scan_addresses];
  repeat (nf_step || apply IH).
Qed.

Lemma sample_loop_builtin_exc doc n counter filtered :
exc_spec (sample_loop doc n counter filtered) builtin_exc.
Proof.
revert filtered. induction counter as [|c IH]; intros filtered; cbn [sample_loop];
  unfold sample_step; repeat (nf_step || apply IH || apply scan_addresses_builtin_exc).
Qed.

(** Everything [parse_relays] raises: a built-in exception of the data or
  the [FetchedError] of line 163; never a network error. *)
Lemma parse_relays_exc doc n :
exc_spec (parse_relays doc n)
  (fun e => builtin_exc e \/ e = FetchedError (ArgStr "Fetching error, relays not found")).
Proof.
assert (Hb : forall A (c : M A), exc_spec c builtin_exc ->
  exc_spec c (fun e => builtin_exc e \/ e = FetchedError (ArgStr "Fetching error, relays not found")))
  by (intros; eapply exc_spec_weaken; eauto).
unfold parse_relays. apply exc_spec_bind; [apply Hb; repeat nf_step | intros has].
destruct (negb has); [intros w e w' [= <- _]; auto|].
apply Hb. repeat (nf_step || apply sample_loop_builtin_exc).
Qed.

(** C23: [parse_relays] raises a [FetchedError] exactly when the
  document has no ["relays"] member, before any other effect and with
  the message ["Fetching error, relays not found"]; every other failure
  is one of Python's own exceptions. *)
Theorem parse_relays_fetched_error doc n w a w' :
parse_relays doc n w = (Exc (FetchedError a), w') <->
py_contains "relays" doc = Ret false /\ a = ArgStr "Fetching error, relays not found" /\ w' = w.
Proof.
destruct json_ops_builtin_exc as (Hc & Hg & _ & Hl & _).
unfold parse_relays, sbind, eval, lift.
destruct (py_contains "relays" doc) as [[|]|e] eqn:Hin; cbn.
- split; [|intros (? & _); discriminate].
  destruct (py_getitem_str doc "relays") as [rels|e] eqn:Hr;
    [|intros [= -> _]; contradiction (Hg _ _ _ Hr)].
  destruct (py_len rels) as [c|e] eqn:Hn;
    [|intros [= -> _]; contradiction (Hl _ _ Hn)].
  destruct (sample_loop doc n (Z.to_nat c) [] w) as [[l|e] w1] eqn:Hloop; [discriminate|].
  intros [= -> _]. contradiction (sample_loop_builtin_exc _ _ _ _ _ _ _ Hloop).
- split; [intros [= <- <-]; auto | intros (_ & -> & ->); reflexivity].
- split; [intros [= -> _]; contradiction (Hc _ _ _ Hin)|].
  intros (? & _); discriminate.
Qed.

(** C24: on a directory whose relay list is empty [parse_relays]
  returns the empty string at once: no draw, no probe, no change of
  state. *)
Theorem parse_relays_empty doc n w :
py_contains "relays" doc = Ret true -> py_getitem_str doc "relays" = Ret (JArr []) ->
parse_relays doc n w = (Ret EmptyString, w).
Proof. intros Hin Hr. unfold parse_relays, sbind, eval, lift. now rewrite Hin, Hr. Qed.

(** The contract of [random.randint(a, b)]: a value in [a, b]. *)
Definition randint_in_range : Prop :=
forall seed k a b, (a <= b)%Z -> (a <= env_randint E seed k a b <= b)%Z.

(** A directory with a single relay. *)
Definition single_relay_doc (fp : string) (addrs : list json) : json :=
JObj [("relays", JArr [JObj [("fingerprint", JStr fp); ("or_addresses", JArr addrs)]])].

(** C9: an address without a colon is not skipped: when the drawn
  relay's first address has neither ['['] nor [':'], [check_port] raises
  IndexError and the whole run fails with it, whatever the other
  addresses and relays_number > 0. *)
Theorem parse_relays_malformed fp a rest n w :
randint_in_range -> find_index ":"%char a = None -> find_index "["%char a = None -> (0 < n)%Z ->
fst (parse_relays (single_relay_doc fp (JStr a :: rest)) n w) = Exc IndexError.
Proof.
intros Hrand Hcolon Hbr Hn.
assert (Hcp : check_port a = Exc IndexError) by (apply check_port_raises; auto).
assert (Hf : py_find "["%char a = (-1)%Z) by now apply py_find_neg1.
specialize (Hrand (rs_seed (w_rng w)) (rs_draws (w_rng w)) 0 0 ltac:(lia))%Z.
unfold parse_relays, sbind, eval, lift. cbn.
change (Z.to_nat (Z.of_nat 1)) with 1%nat. cbn [sample_loop length].
rewrite bool_decide_eq_true_2 by lia.
unfold sample_step, random_randint, sbind, eval, lift. simpl.
replace (Z.of_nat 1 - 1)%Z with 0%Z by lia.
replace (env_randint E (rs_seed (w_rng w)) (rs_draws (w_rng w)) 0 0) with 0%Z by lia.
rewrite py_index_0_cons. simpl. unfold sbind at 1, eval, lift.
rewrite bool_decide_eq_true_2 by exact Hf. unfold sbind. now rewrite Hcp.
Qed.

End WithEnv.
End Sampler.
(** ** Concrete runs *)

Definition reach_all : string -> Z -> bool := fun _ _ => true.
Definition run_env : env := demo_env reach_all (HttpRaise ConnectionError) [].

Definition doc_four : json :=
  Sampler.single_relay_doc "F" [JStr "1.2.3.4:80"; JStr "[::1]:80"; JStr "5.6.7.8:22"; JStr "5.6.7.8:443"].

(** The spec's example: one relay, one reachable address, relays_number
    5: one line, since the loop stops after [len(relays)] draws. *)
Example parse_relays_one_relay :
  fst (Sampler.parse_relays run_env (Sampler.single_relay_doc "F" [JStr "1.2.3.4:80"]) 5
         (init_world ERROR)) = Ret "1.2.3.4:80 F".
Proof. reflexivity. Qed.

(** The count can pass relays_number: with relays_number 1 the drawn
    relay contributes both of its acceptable addresses. *)
Example parse_relays_overshoot :
  fst (Sampler.parse_relays run_env doc_four 1 (init_world ERROR)) =
  Ret ("1.2.3.4:80 F" +:+ Sampler.newline +:+ "5.6.7.8:443 F").
Proof. reflexivity. Qed.

Lemma parse_relays_count_witness :
  (py_getitem_str doc_four "relays" =
     Ret (JArr [JObj [("fingerprint", JStr "F");
                      ("or_addresses", JArr [JStr "1.2.3.4:80"; JStr "[::1]:80";
                                             JStr "5.6.7.8:22"; JStr "5.6.7.8:443"])]])) /\
  ret_spec (Sampler.parse_relays run_env doc_four 1)
    (fun out => exists lines, out = py_join Sampler.newline lines /\
       (Z.of_nat (length lines) <= Z.max 0 (1 - 1) + Z.of_nat 4)%Z /\ ((1 <= 0)%Z -> lines = [])).
Proof.
  split; [reflexivity|].
  apply (Sampler.parse_relays_count run_env doc_four
           [JObj [("fingerprint", JStr "F");
                  ("or_addresses", JArr [JStr "1.2.3.4:80"; JStr "[::1]:80";
                                         JStr "5.6.7.8:22"; JStr "5.6.7.8:443"])]] 4);
    [reflexivity|].
  intros relay aj addrs [<-|[]] [= <-] [= <-]. cbn. lia.
Defined.

Lemma parse_relays_empty_witness :
  fst (Sampler.parse_relays run_env (JObj [("relays", JArr [])]) 30 (init_world ERROR)) = Ret EmptyString.
Proof. rewrite (Sampler.parse_relays_empty run_env _ 30 (init_world ERROR)); reflexivity. Defined.

Lemma parse_relays_malformed_witness :
  fst (Sampler.parse_relays run_env (Sampler.single_relay_doc "F" [JStr "1.2.3.4"; JStr "5.6.7.8:443"]) 30
         (init_world ERROR)) = Exc IndexError.
Proof.
  apply Sampler.parse_relays_malformed; [|reflexivity | reflexivity | lia].
  intros seed k a b Hab. cbn. lia.
Defined.

(** * The selection the spec describes, on typed relay records

    The spec (section 4.4) selects from typed records: per draw, every
    address of the drawn record that has no ['['], parses as
    ["host:port"] with an allowed port and answers a probe contributes
    ["host:port fingerprint"]; an address that does not parse is skipped.
    [SelectSpec.select] states this with the same draws and probes as the
    code.  [parse_relays] computes it on every directory that represents
    the records and whose addresses are well formed. *)
Module SelectSpec.

Record relay_record : Type := { fingerprint : string; or_addresses : list string }.

Section WithEnv.
Context (E : env).

(** The address tests made before probing; a malformed address fails. *)
Definition address_ok (a : string) : bool :=
  bool_decide (py_find "["%char a = (-1)%Z) &&
  match check_port a with Ret b => b | Exc _ => false end.

Fixpoint accept (fp : string) (addrs : list string) (acc : list string) : M (list string) :=
  match addrs with
  | [] => sret acc
  | a :: rest =>
      if address_ok a then
        (let* up := is_socket_open E (Some a) in
         accept fp rest (if up then acc ++ [(a +:+ " ") +:+ fp] else acc))
      else accept fp rest acc
  end.

Definition select_step (rs : list relay_record) (acc : list string) : M (list string) :=
  let* rnd := random_randint E 0 (Z.of_nat (length rs) - 1) in
  let* r := eval (py_index rs rnd) in
  accept (fingerprint r) (or_addresses r) acc.

Fixpoint select_loop (rs : list relay_record) (max_count : Z) (draws_left : nat)
         (acc : list string) : M (list string) :=
  match draws_left with
  | O => sret acc
  | S d =>
      if bool_decide (Z.of_nat (length acc) < max_count)%Z then
        (let* acc' := select_step rs acc in select_loop rs max_count d acc')
      else sret acc
  end.

Definition select (rs : list relay_record) (max_count : Z) : M (list string) :=
  select_loop rs max_count (length rs) [].

(** ** Representation of the records in the decoded document *)

Definition relay_repr (rj : json) (r : relay_record) : Prop :=
  py_getitem_str rj "fingerprint" = Ret (JStr (fingerprint r)) /\
  py_getitem_str rj "or_addresses" = Ret (JArr (map JStr (or_addresses r))).

Definition directory_repr (doc : json) (rs : list relay_record) : Prop :=
  py_contains "relays" doc = Ret true /\
  exists rjs, py_getitem_str doc "relays" = Ret (JArr rjs) /\ Forall2 relay_repr rjs rs.

(** An address the code can test: an IPv6 literal, or ["host:port"]. *)
Definition addr_wf (a : string) : Prop :=
  py_find "["%char a <> (-1)%Z \/ exists b, check_port a = Ret b.

Lemma scan_refines relay fp addrs acc :
  py_getitem_str relay "fingerprint" = Ret (JStr fp) -> Forall addr_wf addrs ->
  st_eq (Sampler.scan_addresses E relay (map JStr addrs) acc) (accept fp addrs acc).
Proof.
  intros Hfp Hwf. revert acc. induction Hwf as [|a addrs Ha _ IH]; intros acc w; [reflexivity|].
  cbn [Sampler.scan_addresses accept map]. unfold address_ok, sbind at 1, eval, lift.
  cbn [py_str_method].
  destruct (bool_decide (py_find "["%char a = (-1)%Z)) eqn:Hb; cbn [andb]; [|exact (IH _ _)].
  apply bool_decide_eq_true in Hb.
  destruct Ha as [Ha|[b Hcp]]; [contradiction|]. rewrite Hcp.
  unfold sbind at 1. destruct b; [|exact (IH _ _)].
  unfold sbind. destruct (is_socket_open E (Some a) w) as [[[|]|e] w']; [|exact (IH _ _)|reflexivity].
  rewrite Hfp. cbn. exact (IH _ _).
Qed.

Definition records_wf (rs : list relay_record) : Prop :=
  Forall (fun r => Forall addr_wf (or_addresses r)) rs.

Section Refinement.
Context (doc : json) (rs : list relay_record).
Hypothesis Hrepr : directory_repr doc rs.
Hypothesis Hwf : records_wf rs.

Lemma step_refines acc : st_eq (Sampler.sample_step E doc acc) (select_step rs acc).
Proof.
  destruct Hrepr as (Hin & rjs & Hr & H2). intros w.
  unfold Sampler.sample_step, select_step, sbind, eval, lift.
  rewrite Hr. cbn [py_len]. rewrite (Forall2_length _ _ _ H2).
  destruct (random_randint E 0 (Z.of_nat (length rs) - 1) w) as [[rnd|e] w1]; [|reflexivity].
  cbn [py_getitem_int].
  pose proof (py_index_Forall2 relay_repr rjs rs rnd H2) as Hidx.
  destruct (py_index rs rnd) as [r|e] eqn:Hrs;
    destruct (py_index rjs rnd) as [rj|e']; try contradiction; [|subst; reflexivity].
  destruct Hidx as [Hfp Hoa]. rewrite Hoa. cbn [py_iter].
  apply scan_refines; [exact Hfp|].
  apply py_index_In in Hrs. unfold records_wf in Hwf. rewrite Forall_forall in Hwf.
  apply Hwf, list_elem_of_In, Hrs.
Qed.

Lemma loop_refines n c acc :
  st_eq (Sampler.sample_loop E doc n c acc) (select_loop rs n c acc).
Proof.
  revert acc. induction c as [|c IH]; intros acc; cbn [Sampler.sample_loop select_loop];
    [reflexivity|].
  case_bool_decide; [|reflexivity].
  apply st_bind_proper; [apply step_refines | intros acc'; apply IH].
Qed.

(** C2: refinement.  On a document that represents the relay records
    [rs] and whose addresses are well formed, [parse_relays] does exactly
    what the spec's selection [select rs] does, draw for draw and probe for
    probe, followed by the newline join. *)
Theorem parse_relays_refines n :
  st_eq (Sampler.parse_relays E doc n)
        (let* lines := select rs n in sret (py_join Sampler.newline lines)).
Proof.
  assert (Hhead : st_eq (Sampler.parse_relays E doc n)
                        (let* f := Sampler.sample_loop E doc n (length rs) [] in
                         sret (py_join Sampler.newline f))).
  { destruct Hrepr as (Hin & rjs & Hr & H2). intros w.
    unfold Sampler.parse_relays, sbind at 1 2 3, eval, lift.
    rewrite Hin, Hr. cbn [negb py_len]. now rewrite (Forall2_length _ _ _ H2), Nat2Z.id. }
  rewrite Hhead. unfold select. now rewrite loop_refines.
Qed.
End Refinement.

End WithEnv.
End SelectSpec.

Definition records_four : list SelectSpec.relay_record :=
  [{| SelectSpec.fingerprint := "F";
      SelectSpec.or_addresses := ["1.2.3.4:80"; "[::1]:80"; "5.6.7.8:22"; "5.6.7.8:443"] |}].

Lemma parse_relays_refines_witness :
  SelectSpec.directory_repr doc_four records_four /\ SelectSpec.records_wf records_four /\
  st_eq (Sampler.parse_relays run_env doc_four 3)
        (let* lines := SelectSpec.select run_env records_four 3 in
         sret (py_join Sampler.newline lines)).
Proof.
  assert (Hr : SelectSpec.directory_repr doc_four records_four).
  { split; [reflexivity|]. eexists. split; [reflexivity|].
    repeat constructor. }
  assert (Hw : SelectSpec.records_wf records_four).
  { unfold SelectSpec.records_wf, records_four. cbn.
    repeat first [ (right; eexists; reflexivity)
                 | (left; intros Hc; vm_compute in Hc; discriminate)
                 | (constructor; cbn) ]. }
  split; [exact Hr|]. split; [exact Hw|].
  exact (SelectSpec.parse_relays_refines run_env doc_four records_four Hr Hw 3).
Defined.
