(* ===== verification/Fetch.v ===== *)
(** * Fetching the directory: [fetch_relays] (src/app/main.py, lines 13-22 and 137-155)

    [fetch_relays(relays_number, timeout)] seeds the random generator with
    the clock, sends one GET for [onion_url] with the given timeout and the
    custom User-Agent, and hands the decoded body to [parse_relays].  A
    status other than 200 raises [FetchedError] inside the [try]; a
    [requests.ConnectionError] becomes [FetchedError("Fetching error,
    server connection error")]; any other exception [e] (the status error
    included) becomes [FetchedError(e)]. *)

From S2P Require Import Prelude PyCore Json World PortFilter Prober Sampler.

Module Fetch.

(** Lines 14-17. *)
Definition onion_url : string :=
  "https://onionoo.torproject.org/details?type=relay&running=true&fields=fingerprint,or_addresses".

(** Lines 19-22. *)
Definition user_agent : string :=
  "Mozilla/5.0 (Linux; Android 10; Android SDK built for x86) AppleWebKit/537.36 (KHTML, like Gecko) Chrome/91.0.4472.120 Mobile Safari/537.36 ".

Definition status_message (status : Z) : string :=
  "Fetching error, server response code is " +:+ py_str_int status.

Section WithEnv.
Context (E : env).

(** The [except] clauses of lines 152-155. *)
Definition fetch_handler (e : exc) : M string :=
  match e with
  | ConnectionError => raise (FetchedError (ArgStr "Fetching error, server connection error"))
  | _ => raise (FetchedError (ArgExc e))
  end.

(** Lines 146-151: what the [try] does with the response. *)
Definition fetch_body (relays_number : Z) (resp : Z * option json) : M string :=
  if negb (resp.1 =? 200)%Z then raise (FetchedError (ArgStr (status_message resp.1)))
  else
    (let* doc := eval (resp_json resp.2) in
     Sampler.parse_relays E doc relays_number).

(** Lines 137-155. *)
Definition fetch_relays (relays_number timeout : Z) : M string :=
  let* now := time_time E in
  let* _ := random_seed now in
  try_except
    (let* resp := requests_get E onion_url timeout user_agent in
     fetch_body relays_number resp)
    fetch_handler.

(** ** Properties *)

Lemma fetch_handler_raises e : exc_spec (fetch_handler e) (fun e' => exists a, e' = FetchedError a).
Proof. intros w e' w'. destruct e; intros [= <- _]; eauto. Qed.

(** C6: [fetch_relays] raises nothing but [FetchedError]: a transport
    failure, a bad status, an undecodable body, a document without
    relays and any exception of the sampling all reach the caller as a
    [FetchedError]. *)
Theorem fetch_relays_only_fetched n t :
  exc_spec (fetch_relays n t) (fun e => exists a, e = FetchedError a).
Proof.
  unfold fetch_relays. apply exc_spec_bind; [intros w e w' [=]|intros now].
  apply exc_spec_bind; [intros w e w' [=]|intros _].
  apply exc_spec_try. apply fetch_handler_raises.
Qed.

(** The state after the clock read and the seeding, and after the request. *)
Definition seeded (w : world) : world :=
  set_rng {| rs_seed := env_time E (w_time_calls w); rs_draws := 0 |} (tick_time w).

Definition after_request (w : world) (t : Z) : world :=
  add_request {| req_url := onion_url; req_timeout := t; req_user_agent := user_agent |} (seeded w).

Lemma fetch_relays_unfold n t w :
  fetch_relays n t w =
  try_except (let* resp := requests_get E onion_url t user_agent in fetch_body n resp)
             fetch_handler (seeded w).
Proof. reflexivity. Qed.

Lemma fetch_relays_sent n t w resp :
  (0 < t)%Z -> env_http E (length (w_requests w)) = HttpResponse resp.1 resp.2 ->
  fetch_relays n t w = try_except (fetch_body n resp) fetch_handler (after_request w t).
Proof.
  intros Ht Hhttp. rewrite fetch_relays_unfold, try_except_sbind. unfold requests_get.
  replace (t <=? 0)%Z with false by lia. cbn. rewrite Hhttp. now destruct resp.
Qed.

(** C13: a response whose status is not 200 fails with the [FetchedError]
    raised at line 147, wrapped once more by line 155: its text is
    ["Fetching error, server response code is <status>"]. *)
Theorem fetch_relays_status n t w status body :
  (0 < t)%Z -> env_http E (length (w_requests w)) = HttpResponse status body -> status <> 200%Z ->
  fetch_relays n t w =
  (Exc (FetchedError (ArgExc (FetchedError (ArgStr (status_message status))))), after_request w t).
Proof.
  intros Ht Hhttp Hst. rewrite (fetch_relays_sent n t w (status, body)) by assumption.
  unfold try_except, fetch_body. cbn. replace (status =? 200)%Z with false by lia. reflexivity.
Qed.

(** C14: on a 200 response [fetch_relays] returns what [parse_relays]
    returns on the decoded body, run after the clock read, the seeding and
    the request, with the state it leaves; an exception of [parse_relays]
    [e] comes out as [FetchedError(e)] (line 155), and a body that does
    not decode as [FetchedError(RequestException)]. *)
Theorem fetch_relays_ok n t w body :
  (0 < t)%Z -> env_http E (length (w_requests w)) = HttpResponse 200 body ->
  fetch_relays n t w =
  match body with
  | None => (Exc (FetchedError (ArgExc RequestException)), after_request w t)
  | Some doc =>
      match Sampler.parse_relays E doc n (after_request w t) with
      | (Ret out, w') => (Ret out, w')
      | (Exc e, w') => (Exc (FetchedError (ArgExc e)), w')
      end
  end.
Proof.
  intros Ht Hhttp. rewrite (fetch_relays_sent n t w (200%Z, body)) by assumption.
  unfold fetch_body. change (negb (fst (200%Z, body) =? 200)%Z) with false.
  destruct body as [doc|]; [|reflexivity].
  cbv [try_except sbind eval lift resp_json snd].
  destruct (Sampler.parse_relays E doc n (after_request w t)) as [[out|e] w'] eqn:Hp; [reflexivity|].
  destruct (Sampler.parse_relays_exc E doc n _ _ _ Hp) as [Hb| ->]; [|reflexivity].
  destruct e; done.
Qed.

Lemma fetch_body_io n resp : keeps io_part (try_except (fetch_body n resp) fetch_handler).
Proof.
  apply keeps_try; [|intros []; apply keeps_raise].
  unfold fetch_body. destruct (negb _); [apply keeps_raise|].
  apply keeps_bind; [apply keeps_eval | intros doc; apply Sampler.parse_relays_io].
Qed.

(** C15: [fetch_relays] seeds the generator with the clock and sends
    exactly one GET, to [onion_url] with the given timeout and the custom
    User-Agent, when the timeout is positive, and none otherwise. *)
Theorem fetch_relays_request n t w :
  let w' := snd (fetch_relays n t w) in
  rs_seed (w_rng w') = env_time E (w_time_calls w) /\
  w_requests w' = w_requests w ++
    (if (0 <? t)%Z then [{| req_url := onion_url; req_timeout := t; req_user_agent := user_agent |}]
     else []).
Proof.
  cbn zeta. rewrite fetch_relays_unfold, try_except_sbind. unfold requests_get.
  destruct (t <=? 0)%Z eqn:Ht; cbn.
  - replace (0 <? t)%Z with false by lia. rewrite app_nil_r. destruct t; split; reflexivity.
  - replace (0 <? t)%Z with true by lia.
    destruct (env_http E (length (w_requests w))) as [st b|e]; cbn; [|destruct e; split; reflexivity].
    pose proof (fetch_body_io n (st, b) (after_request w t)) as Hio.
    fold (after_request w t). unfold io_part in Hio.
    injection Hio as Hseed _ Hreq _ _ _. rewrite Hseed, Hreq. split; reflexivity.
Qed.

(** C16: a timeout that is not positive, which [Config.init_env]
    accepts, makes every [fetch_relays] fail before any request is sent:
    urllib3's ValueError, wrapped into a [FetchedError]. *)
Theorem fetch_relays_bad_timeout n t w :
  (t <= 0)%Z -> fetch_relays n t w = (Exc (FetchedError (ArgExc ValueError)), seeded w).
Proof.
  intros Ht. rewrite fetch_relays_unfold, try_except_sbind. unfold requests_get.
  now replace (t <=? 0)%Z with true by lia.
Qed.

(** [fetch_relays] makes no Bot API call. *)
Lemma fetch_relays_bot n t : keeps bot_part (fetch_relays n t).
Proof.
  unfold fetch_relays. apply keeps_bind; [intros w; reflexivity | intros now].
  apply keeps_bind; [intros w; reflexivity | intros _].
  apply keeps_try; [|intros []; apply keeps_raise].
  apply keeps_bind; [|intros resp].
  - intros w. unfold requests_get. destruct (_ <=? _)%Z; [reflexivity|].
    destruct (env_http _ _); reflexivity.
  - unfold fetch_body. destruct (negb _); [apply keeps_raise|].
    apply keeps_bind; [apply keeps_eval | intros doc; apply keeps_io_bot, Sampler.parse_relays_io].
Qed.

End WithEnv.
End Fetch.

(** ** Concrete runs *)

Definition env_status (status : Z) (body : option json) : env :=
  demo_env reach_all (HttpResponse status body) [].

Lemma fetch_relays_status_witness :
  Fetch.fetch_relays (env_status 404 None) 30 5 (init_world ERROR) =
  (Exc (FetchedError (ArgExc (FetchedError (ArgStr (Fetch.status_message 404))))),
   Fetch.after_request (env_status 404 None) (init_world ERROR) 5) /\
  Fetch.status_message 404 = "Fetching error, server response code is 404".
Proof.
  split; [|reflexivity].
  apply (Fetch.fetch_relays_status _ _ _ _ _ None); [lia | reflexivity | discriminate].
Defined.

Lemma fetch_relays_ok_witness :
  (Fetch.fetch_relays (env_status 200 (Some doc_four)) 30 5 (init_world ERROR) =
   match Sampler.parse_relays (env_status 200 (Some doc_four)) doc_four 30
           (Fetch.after_request (env_status 200 (Some doc_four)) (init_world ERROR) 5) with
   | (Ret out, w') => (Ret out, w')
   | (Exc e, w') => (Exc (FetchedError (ArgExc e)), w')
   end) /\
  fst (Fetch.fetch_relays (env_status 200 (Some doc_four)) 30 5 (init_world ERROR)) =
  Ret ("1.2.3.4:80 F" +:+ Sampler.newline +:+ "5.6.7.8:443 F").
Proof.
  split; [apply (Fetch.fetch_relays_ok _ 30 5 (init_world ERROR) (Some doc_four)); [lia | reflexivity]|].
  reflexivity.
Defined.

(** End to end: an address without a colon makes the whole fetch fail
    with [FetchedError(IndexError)]. *)
Example fetch_relays_malformed_address :
  fst (Fetch.fetch_relays
         (env_status 200 (Some (Sampler.single_relay_doc "F" [JStr "1.2.3.4"; JStr "5.6.7.8:443"])))
         30 5 (init_world ERROR)) =
  Exc (FetchedError (ArgExc IndexError)).
Proof. reflexivity. Qed.

Lemma fetch_relays_bad_timeout_witness :
  fst (Fetch.fetch_relays (env_status 200 (Some doc_four)) 30 0 (init_world ERROR)) =
  Exc (FetchedError (ArgExc ValueError)).
Proof. rewrite Fetch.fetch_relays_bad_timeout by lia. reflexivity. Defined.
