(* ===== verification/Config.v ===== *)
(** * Configuration: [Config] (src/app/config.py)

    [Config()] sets the defaults (timeout 5, relays_number 30, an empty
    token, debug on); [init_env()] then reads [TOKEN], [DEBUG],
    [REQUEST_TIMEOUT] and [RELAYS_NUMBER] from the environment.  DEBUG
    stays on unless the variable is set to something other than ["1"] or
    ["true"]; the two numbers go through [int()], which raises ValueError
    on a malformed value, and are not checked further. *)

From S2P Require Import Prelude PyCore Json World.

Module Config.

Record config : Type := {
  timeout : Z;
  relays_number : Z;
  telegram_token : option string;   (** [None] when [TOKEN] is unset *)
  debug : bool
}.

(** [Config.__init__] (lines 6-10). *)
Definition config_init : config :=
  {| timeout := 5; relays_number := 30; telegram_token := Some ""; debug := true |}.

Section WithEnv.
Context (E : env).

(** Lines 15-19: [DEBUG] set to ["1"] or ["true"] turns debugging on, set
    to anything else turns it off, unset leaves it. *)
Definition read_debug (current : bool) : bool :=
  match env_getenv E "DEBUG" with
  | None => current
  | Some v => String.eqb v "1" || String.eqb v "true"
  end.

(** Lines 21-25: an [int()] of the variable when it is set. *)
Definition read_int (name : string) (current : Z) : pyr Z :=
  match env_getenv E name with
  | None => Ret current
  | Some v => py_int v
  end.

(** [Config.init_env] (lines 12-25). *)
Definition init_env (c : config) : pyr config :=
  match read_int "REQUEST_TIMEOUT" (timeout c) with
  | Exc e => Exc e
  | Ret t =>
      match read_int "RELAYS_NUMBER" (relays_number c) with
      | Exc e => Exc e
      | Ret n =>
          Ret {| timeout := t; relays_number := n; telegram_token := env_getenv E "TOKEN";
                 debug := read_debug (debug c) |}
      end
  end.

(** ** Properties *)

(** C20: with none of the four variables set, [init_env] keeps the
    defaults of [__init__] and leaves no token. *)
Theorem init_env_defaults :
  env_getenv E "TOKEN" = None -> env_getenv E "DEBUG" = None ->
  env_getenv E "REQUEST_TIMEOUT" = None -> env_getenv E "RELAYS_NUMBER" = None ->
  init_env config_init =
  Ret {| timeout := 5; relays_number := 30; telegram_token := None; debug := true |}.
Proof.
  intros Ht Hd Hr Hn. unfold init_env, read_int, read_debug. now rewrite Hr, Hn, Ht, Hd.
Qed.

(** C18: after [init_env], debugging is on exactly when [DEBUG] is
    ["1"] or ["true"], or unset with debugging already on; any other value
    (["True"], ["yes"], ["0"]) turns it off. *)
Theorem init_env_debug c c' :
  init_env c = Ret c' ->
  (debug c' = true <->
   env_getenv E "DEBUG" = Some "1" \/ env_getenv E "DEBUG" = Some "true" \/
   (env_getenv E "DEBUG" = None /\ debug c = true)).
Proof.
  unfold init_env, read_int.
  destruct (env_getenv E "REQUEST_TIMEOUT"); [destruct (py_int _)|]; try discriminate;
  destruct (env_getenv E "RELAYS_NUMBER"); try (destruct (py_int _)); try discriminate;
  intros [= <-]; cbn; unfold read_debug;
  destruct (env_getenv E "DEBUG") as [v|];
  (split; [intros H | intros [H|[H|[H1 H2]]]]); simplify_eq; auto;
  try (apply orb_true_iff in H as [H|H]; apply String.eqb_eq in H; subst; auto);
  reflexivity.
Qed.

(** C19: [init_env] reads back any integer written in decimal into
    [REQUEST_TIMEOUT] and [RELAYS_NUMBER], zero and negative values
    included: nothing checks that they are positive. *)
Theorem init_env_numbers c t n :
  env_getenv E "REQUEST_TIMEOUT" = Some (py_str_int t) ->
  env_getenv E "RELAYS_NUMBER" = Some (py_str_int n) ->
  exists c', init_env c = Ret c' /\ timeout c' = t /\ relays_number c' = n.
Proof.
  intros Ht Hn. unfold init_env, read_int. rewrite Ht, Hn, !py_int_str. eauto.
Qed.

End WithEnv.
End Config.

(** ** Concrete runs *)

Definition env_vars (vars : list (string * string)) : env :=
  demo_env (fun _ _ => true) (HttpRaise ConnectionError) vars.

Lemma init_env_defaults_witness :
  Config.init_env (env_vars []) Config.config_init =
  Ret {| Config.timeout := 5; Config.relays_number := 30; Config.telegram_token := None;
         Config.debug := true |}.
Proof. apply Config.init_env_defaults; reflexivity. Defined.

Definition debug_env : env := env_vars [("DEBUG", "True")].
Definition debug_off : Config.config :=
  {| Config.timeout := 5; Config.relays_number := 30; Config.telegram_token := None;
     Config.debug := false |}.

Lemma init_env_debug_witness :
  Config.init_env debug_env Config.config_init = Ret debug_off /\
  (Config.debug debug_off = true <->
   env_getenv debug_env "DEBUG" = Some "1" \/ env_getenv debug_env "DEBUG" = Some "true" \/
   (env_getenv debug_env "DEBUG" = None /\ Config.debug Config.config_init = true)).
Proof.
  assert (H : Config.init_env debug_env Config.config_init = Ret debug_off) by reflexivity.
  split; [exact H|]. exact (Config.init_env_debug debug_env _ _ H).
Defined.

Lemma init_env_numbers_witness :
  exists c', Config.init_env (env_vars [("REQUEST_TIMEOUT", "0"); ("RELAYS_NUMBER", "-3")])
               Config.config_init = Ret c' /\ Config.timeout c' = 0%Z /\ Config.relays_number c' = (-3)%Z.
Proof. apply (Config.init_env_numbers _ _ 0 (-3)); reflexivity. Defined.

