(* ===== verification/Bot.v ===== *)
(** * The bot's handlers (src/app/main.py, lines 191-245)

    At start-up the logging level is DEBUG or ERROR after [config.debug].
    [send_welcome] answers /start and /help with a fixed text.  [relays]
    answers /relays: it announces the search, calls [fetch_relays] with the
    configured number and timeout, and either sends the result as a
    document captioned with the configured number, or, when the fetch
    raises, logs the error and replies with a fixed apology.  A failed
    announcement or document is logged; a failed apology propagates to the
    bot library. *)

From S2P Require Import Prelude PyCore Json World PortFilter Prober Sampler Fetch Config.

Module Bot.

(** The part of a Telegram message the handlers use: [message.chat.id]. *)
Record message : Type := { chat_id : Z }.

Definition nl : string := Sampler.newline.

(** Lines 206-210: the triple-quoted reply of [send_welcome]. *)
Definition welcome_text : string :=
  nl +:+ "Hi, this is a bot giving a list of relays for tor. Below is a list of available commands."
  +:+ nl +:+ nl +:+ "/start - greeting, help on bot commands" +:+ nl +:+ "/help - alias for /start"
  +:+ nl +:+ "/relays - to get a text document with tor relays" +:+ nl +:+ nl +:+ "        ".

Definition trying_text : string := "Trying to get a list of relays".
Definition sorry_text : string := "The list of relays is not available. Try later".

(** Line 240: the caption names the configured number of relays. *)
Definition caption (cfg : Config.config) : string :=
  "List of " +:+ py_str_int (Config.relays_number cfg) +:+ " tor relays".

(** Lines 192-197: the logging level chosen at start-up. *)
Definition startup_level (cfg : Config.config) : log_level :=
  if Config.debug cfg then DEBUG else ERROR.

Section WithEnv.
Context (E : env).

(** Lines 203-211. *)
Definition send_welcome (m : message) : M unit :=
  bot_api E (ReplyTo (chat_id m) welcome_text).

(** Lines 228-235: both [except] clauses log and apologise. *)
Definition fetch_failed (m : message) (e : exc) : M (option string) :=
  match e with
  | FetchedError _ =>
      let* _ := log_error "get relays fetched error" (Some e) in
      let* _ := bot_api E (ReplyTo (chat_id m) sorry_text) in
      sret None
  | _ =>
      let* _ := log_error "get relays fetch relays:" (Some e) in
      let* _ := bot_api E (ReplyTo (chat_id m) sorry_text) in
      sret None
  end.

(** Lines 215-245; [None] from the second [try] is the early [return]. *)
Definition relays (cfg : Config.config) (m : message) : M unit :=
  let* _ := try_except (bot_api E (SendMessage (chat_id m) trying_text))
                       (fun e => log_error "get relays send reply to user" (Some e)) in
  let* r := try_except
              (let* output := Fetch.fetch_relays E (Config.relays_number cfg) (Config.timeout cfg) in
               let* _ := log_debug "load relays successful" in
               sret (Some output))
              (fetch_failed m) in
  match r with
  | None => sret tt
  | Some output =>
      try_except (bot_api E (SendDocument (chat_id m) (caption cfg) output))
                 (fun e => log_error "get relays send reply to user" (Some e))
  end.

(** ** Properties *)

(** C7: when the Bot API accepts every call, [relays] returns normally
    and the chat receives exactly the announcement and then either the
    document produced by [fetch_relays], captioned with the configured
    number of relays (whatever the number of lines), or the fixed apology
    when the fetch raised. *)
Theorem relays_replies cfg m w :
  (forall k, env_send E k = None) ->
  let w1 := bot_step (Some (SendMessage (chat_id m) trying_text)) w in
  fst (relays cfg m w) = Ret tt /\
  w_sent (snd (relays cfg m w)) = w_sent w ++ SendMessage (chat_id m) trying_text ::
    match fst (Fetch.fetch_relays E (Config.relays_number cfg) (Config.timeout cfg) w1) with
    | Ret out => [SendDocument (chat_id m) (caption cfg) out]
    | Exc _ => [ReplyTo (chat_id m) sorry_text]
    end.
Proof.
  intros Hok w1.
  pose proof (Fetch.fetch_relays_bot E (Config.relays_number cfg) (Config.timeout cfg) w1) as Hbot.
  cbv [relays sbind try_except bot_api sret log_debug log_error modify fetch_failed].
  rewrite Hok. fold w1.
  destruct (Fetch.fetch_relays E _ _ w1) as [[out|e] w2] eqn:Hf; cbn in Hbot |- *;
    injection Hbot as Hcalls Hsent.
  all: try destruct (w_log_level w2); try destruct e; cbn; rewrite ?Hok; cbn;
    (split; [reflexivity | rewrite Hsent, <- app_assoc; reflexivity]).
Qed.

(** The state after the announcement of line 218: the message went
    through, or the Bot API refused it and the [except] clause of line 220
    logged the exception. *)
Definition announced (m : message) (w : world) : world :=
  match env_send E (w_bot_calls w) with
  | None => bot_step (Some (SendMessage (chat_id m) trying_text)) w
  | Some e0 => add_log (LogError "get relays send reply to user" (Some e0)) (bot_step None w)
  end.

(** C17: [relays] raises exactly when the fetch raised and the Bot API
    then refused the apology, and what it raises is what the refused
    apology raised.  On the way the refused announcement was logged and
    passed over, and the fetch error was logged under the message of its
    [except] clause just before the apology; a refused document never
    escapes. *)
Theorem relays_raises cfg m w e w' :
  relays cfg m w = (Exc e, w') <->
  exists a w2,
    Fetch.fetch_relays E (Config.relays_number cfg) (Config.timeout cfg) (announced m w) = (Exc a, w2) /\
    env_send E (w_bot_calls w2) = Some e /\
    w' = bot_step None
           (add_log (LogError (match a with
                               | FetchedError _ => "get relays fetched error"
                               | _ => "get relays fetch relays:"
                               end) (Some a)) w2).
Proof.
  unfold announced.
  cbv [relays sbind try_except bot_api sret log_debug log_error modify fetch_failed].
  destruct (env_send E (w_bot_calls w)) as [e0|];
    destruct (Fetch.fetch_relays E _ _ _) as [[out|a] w2];
    repeat (case_match; cbn [fst snd] in *; autorewrite with t2r_rw in *; simplify_eq);
    (split; [intros ?; simplify_eq; eauto 10 | intros (? & ? & ? & ? & ?); simplify_eq; eauto]).
Qed.

End WithEnv.
End Bot.

(** ** Concrete runs *)

Definition bot_cfg : Config.config :=
  {| Config.timeout := 5; Config.relays_number := 30; Config.telegram_token := Some "t";
     Config.debug := false |}.

Lemma relays_replies_witness :
  let E := env_status 200 (Some doc_four) in
  let m := {| Bot.chat_id := 7 |} in
  let w1 := bot_step (Some (SendMessage 7 Bot.trying_text)) (init_world ERROR) in
  fst (Bot.relays E bot_cfg m (init_world ERROR)) = Ret tt /\
  w_sent (snd (Bot.relays E bot_cfg m (init_world ERROR))) = [] ++ SendMessage 7 Bot.trying_text ::
    match fst (Fetch.fetch_relays E 30 5 w1) with
    | Ret out => [SendDocument 7 (Bot.caption bot_cfg) out]
    | Exc _ => [ReplyTo 7 Bot.sorry_text]
    end.
Proof. apply (Bot.relays_replies _ bot_cfg {| Bot.chat_id := 7 |}). reflexivity. Defined.

(** The caption announces 30 relays while the document holds two lines. *)
Example relays_caption_count :
  w_sent (snd (Bot.relays (env_status 200 (Some doc_four)) bot_cfg {| Bot.chat_id := 7 |}
                 (init_world ERROR))) =
  [SendMessage 7 Bot.trying_text;
   SendDocument 7 "List of 30 tor relays" ("1.2.3.4:80 F" +:+ Sampler.newline +:+ "5.6.7.8:443 F")].
Proof. reflexivity. Qed.


(** A 404 from onionoo, and a Bot API that refuses the second call (the
    apology) with a connection error: the handler raises that error. *)
Definition refusing_env : env :=
  let E0 := env_status 404 None in
  {| env_time := env_time E0; env_randint := env_randint E0; env_socket_ok := env_socket_ok E0;
     env_connect := env_connect E0; env_http := env_http E0;
     env_send := fun k => if Nat.eqb k 1 then Some ConnectionError else None;
     env_getenv := env_getenv E0 |}.

Example relays_apology_refused :
  fst (Bot.relays refusing_env bot_cfg {| Bot.chat_id := 7 |} (init_world ERROR)) = Exc ConnectionError /\
  w_sent (snd (Bot.relays refusing_env bot_cfg {| Bot.chat_id := 7 |} (init_world ERROR))) =
  [SendMessage 7 Bot.trying_text].
Proof. split; reflexivity. Qed.
